(** * The testbench agent of [test_harness/agent.py]

    A shallow embedding of the generate / validate / repair loop of
    [agent.py] and the properties of it that the design document states.

    Conventions of the embedding.
    - A Python [str] is a [string]: the sequence of bytes of its UTF-8
      encoding.  [bytes] values (the captured output streams of the compiler)
      are [list byte].
    - The text-generation service, the operating system and the codec of
      [bytes.decode] form the environment, a record [Env].  The service is not
      deterministic, so each answer of the environment is a function of the
      whole history of the interaction so far.
    - A computation threads the history (the list of events, oldest first)
      and ends in a value, in a Python exception, or runs out of fuel:
      fuel bounds the number of iterations of the one [while] loop. *)

From Stdlib Require Import ZArith Ascii.
From stdpp Require Import base list strings gmap.

Local Open Scope Z_scope.

(** ** Text: lines, slices, joins *)

Module Text.

Definition nl : string := String "010"%char EmptyString.
Definition dq : string := String "034"%char EmptyString.

(** The one-byte line boundaries of [str.splitlines], the carriage return
    apart: LF, VT, FF, FS, GS, RS. *)
Definition is_linebreak (c : ascii) : bool :=
  match c with
  | "010" | "011" | "012" | "028" | "029" | "030" => true
  | _ => false
  end%char.

Definition snoc (s : string) (c : ascii) : string := s +:+ String c EmptyString.

Definition flush (cur : string) : list string :=
  match cur with
  | EmptyString => []
  | _ => [cur]
  end.

(** [str.splitlines()], line ends not kept.  The boundaries are LF, CR,
    CR LF, VT, FF, FS, GS, RS and, in their UTF-8 encodings, NEL (C2 85),
    LS (E2 80 A8) and PS (E2 80 A9).  A boundary closes the current line,
    also an empty one; at the end of the text a pending line is emitted
    only when it has characters. *)
Fixpoint splitlines_from (cur : string) (s : string) : list string :=
  match s with
  | EmptyString => flush cur
  | String c rest =>
      match c with
      | "013"%char =>
          match rest with
          | String "010"%char rest' => cur :: splitlines_from EmptyString rest'
          | _ => cur :: splitlines_from EmptyString rest
          end
      | "194"%char =>
          match rest with
          | String "133"%char rest' => cur :: splitlines_from EmptyString rest'
          | _ => splitlines_from (snoc cur c) rest
          end
      | "226"%char =>
          match rest with
          | String "128"%char (String "168"%char rest') =>
              cur :: splitlines_from EmptyString rest'
          | String "128"%char (String "169"%char rest') =>
              cur :: splitlines_from EmptyString rest'
          | _ => splitlines_from (snoc cur c) rest
          end
      | _ =>
          if is_linebreak c then cur :: splitlines_from EmptyString rest
          else splitlines_from (snoc cur c) rest
      end
  end.

Definition splitlines (s : string) : list string := splitlines_from EmptyString s.

(** [sep.join(parts)] *)
Definition join (sep : string) (parts : list string) : string :=
  String.concat sep parts.

(** Python's treatment of one bound of a slice of a sequence of length
    [n]: a negative bound counts from the end, and both are clamped. *)
Definition clamp_index (n i : Z) : Z :=
  if i <? 0 then Z.max (i + n) 0 else Z.min i n.

(** [l[start:stop]] *)
Definition slice {A : Type} (l : list A) (start stop : Z) : list A :=
  let n := Z.of_nat (length l) in
  let lo := clamp_index n start in
  let hi := clamp_index n stop in
  take (Z.to_nat (hi - lo)) (drop (Z.to_nat lo) l).

(** ['\n'.join(text.splitlines()[1:-1])], the expression that
    [extract_header], [creating_tb] and [fix_verilog_syntax] each apply to
    the text of the response. *)
Definition strip_envelope (text : string) : string :=
  join nl (slice (splitlines text) 1 (-1)).

(** [needle in hay] *)
Fixpoint contains (needle hay : string) : bool :=
  String.prefix needle hay ||
  match hay with
  | EmptyString => false
  | String _ hay' => contains needle hay'
  end.

End Text.


Import Text.

(** ** Values, exceptions and events *)

Definition bytes : Type := list Byte.byte.

(** The exceptions that the calls of [agent.py] can raise. *)
Inductive exn : Type :=
  | KeyError (key : string)                 (* [d[key]], key absent *)
  | IndexError                              (* [l[0]] on an empty list *)
  | UnicodeDecodeError                      (* [b.decode()] *)
  | CalledProcessError (returncode : Z) (stdout stderr : bytes)
                                            (* [subprocess.run(..., check=True)] *)
  | OSError (reason : string)               (* the process could not be started *)
  | ServiceError (reason : string).         (* raised by [generate_content] *)

(** What a call into the environment gives back: a value or an exception. *)
Inductive result (A : Type) : Type :=
  | Ok (a : A)
  | Err (e : exn).
Arguments Ok {A} a.
Arguments Err {A} e.

(** The response object of [model.generate_content]: the code reads
    [response.candidates[0].text]. *)
Record Candidate : Type := { text : string }.
Record GenerationResponse : Type := { candidates : list Candidate }.

(** What became of the external process: it ran and exited with a status
    and its two captured streams, or it could not be started. *)
Inductive ProcOutcome : Type :=
  | Exited (returncode : Z) (stdout stderr : bytes)
  | NotStarted (reason : string).

Inductive Event : Type :=
  | EvInit (location : string)                           (* [vertexai.init] *)
  | EvGenerate (model prompt : string) (r : result GenerationResponse)
  | EvPrint (line : string)
  | EvTempDir (dir : string)                             (* entering [with] *)
  | EvWriteText (path content : string)
  | EvRun (argv : list string) (o : ProcOutcome)
  | EvCleanup (dir : string).                            (* leaving [with] *)

Definition Trace : Type := list Event.

Record Env : Type := {
  generate_content : Trace -> string -> string -> result GenerationResponse;
  mkdtemp : Trace -> string;
  spawn : Trace -> list string -> ProcOutcome;
  decode : bytes -> option string
}.

(** ** Computations *)

Inductive outcome (A : Type) : Type :=
  | Returned (a : A)
  | Raised (e : exn)
  | OutOfFuel.
Arguments Returned {A} a.
Arguments Raised {A} e.
Arguments OutOfFuel {A}.

Definition M (A : Type) : Type := Trace -> outcome A * Trace.

Definition ret {A : Type} (a : A) : M A := fun h => (Returned a, h).

Definition raise {A : Type} (e : exn) : M A := fun h => (Raised e, h).

Definition diverge {A : Type} : M A := fun h => (OutOfFuel, h).

Definition bind {A B : Type} (m : M A) (k : A -> M B) : M B :=
  fun h =>
    match m h with
    | (Returned a, h') => k a h'
    | (Raised e, h') => (Raised e, h')
    | (OutOfFuel, h') => (OutOfFuel, h')
    end.

Notation "x <- m ;; k" := (bind m (fun x => k))
  (at level 20, m at level 99, k at level 200, right associativity).
Notation "' pat <- m ;; k" := (bind m (fun x => match x with pat => k end))
  (at level 20, pat pattern, m at level 99, k at level 200, right associativity).
Notation "m ;;; k" := (bind m (fun _ => k))
  (at level 100, k at level 200, right associativity).

Definition emit (ev : Event) : M unit := fun h => (Returned tt, h ++ [ev]).

Definition lift {A : Type} (r : result A) : M A :=
  match r with
  | Ok a => ret a
  | Err e => raise e
  end.

(** [try: body  except <filter> as e: handler e]; the handler answers [None]
    on the exceptions that the [except] clause does not name. *)
Definition try_except {A : Type} (body : M A) (handler : exn -> option (M A)) : M A :=
  fun h =>
    match body h with
    | (Raised e, h') =>
        match handler e with
        | Some k => k h'
        | None => (Raised e, h')
        end
    | r => r
    end.

(** [d[key]] on a [dict] *)
Definition getitem (d : gmap string string) (key : string) : M string :=
  match d !! key with
  | Some v => ret v
  | None => raise (KeyError key)
  end.

(** [l[0]] *)
Definition first {A : Type} (l : list A) : M A :=
  match l with
  | x :: _ => ret x
  | [] => raise IndexError
  end.

(** [response.candidates[0].text] *)
Definition candidate_text (r : GenerationResponse) : M string :=
  c <- first (candidates r) ;; ret (text c).

Definition print (s : string) : M unit := emit (EvPrint s).

(** ** The prompts

    Each f-string of the source, line by line; the lines are joined by the
    newlines of the triple-quoted literal. *)

Definition header_prompt (mutant0 : string) : string :=
  String.concat nl
    [ "You are an expert in digital hardware design. Given the following module, please return the module header.";
      "    " +:+ mutant0;
      "";
      "    Only return the module header with the bit widths of the inputs and outputs, and don't provide any additional information.";
      "    " ].

Definition bugs_prompt (functional_desc : string) : string :=
  String.concat nl
    [ "";
      "    You are an expert in digital hardware verification. Given the following functional description of a module:";
      "    " +:+ functional_desc;
      "    Your task is to identify and describe possible bugs that may exist in implementations of this module.";
      "    Provide a thorough, specific, and concise list of bullet points of potential bugs. Focus on realistic design, logic, or ";
      "    timing issues. Avoid unnecessary commentary or speculation beyond what's relevant to potential bugs.";
      "    " ].

(** The requirements that the synthesis prompt and the repair prompt both
    end with. *)
Definition requirements (module_header : string) : list string :=
  [ "    Your output should be only the Verilog testbench code, with no extra explanation or commentary. ";
    "    Do not write any additional modules other than the testbench module. ";
    "    The testbench module name is tb. ";
    "    This is the module header of the " +:+ module_header;
    "    It outputs $display(" +:+ dq +:+ "TESTS PASSED" +:+ dq +:+ ") if the Verilog module passes the testbench. ";
    "    It calls an error if the Verilog module does not pass the testbench.";
    "    It calls $finish in the end.";
    "    " ].

Definition tb_prompt (functional_desc bugs_text module_header : string) : string :=
  String.concat nl
    ([ "";
       "    You are an expert in digital hardware verification. ";
       "    You are given the functional description of a Verilog module: ";
       "    " +:+ functional_desc;
       "    Your task is to generate a comprehensive and concise Verilog testbench that verifies the correctness of a module ";
       "    implementing this description. The testbench should aim to detect common issues, cover edge cases, ";
       "    and validate core functionality.";
       "    Additionally, consider the following potential bugs that may exist in the implementation: ";
       "    " +:+ bugs_text;
       "    Use this list to inform what tests to include in the testbench. ";
       "";
       "    The testbench should adhere to the following requirements:" ]
     ++ requirements module_header).

Definition fix_prompt (verilog_code error_message module_header : string) : string :=
  String.concat nl
    ([ "";
       "    Given the following testbench module written in Verilog code: " +:+ verilog_code;
       "    as well as the following error message for syntax " +:+ error_message +:+ ", please rewrite the code such that";
       "    there are no syntax issues.";
       "    As before, the testbench should adhere to the following requirements:" ]
     ++ requirements module_header).

(** [pathlib.Path(dir) / name] then [str(...)] *)
Definition path_join (dir name : string) : string := dir +:+ "/" +:+ name.

(** ** The agent *)

Section Agent.

Variable env : Env.

(** [model.generate_content(prompt)] *)
Definition model_generate_content (model prompt : string) : M GenerationResponse :=
  fun h =>
    let r := generate_content env h model prompt in
    lift r (h ++ [EvGenerate model prompt r]).

(** [path.write_text(content)] *)
Definition write_text (path content : string) : M unit :=
  emit (EvWriteText path content).

(** [subprocess.run(argv, check=True, stdout=PIPE, stderr=PIPE)]: a status
    other than zero raises [CalledProcessError]; a process that cannot be
    started raises an [OSError]. *)
Definition subprocess_run (argv : list string) : M unit :=
  fun h =>
    let o := spawn env h argv in
    let h' := h ++ [EvRun argv o] in
    match o with
    | Exited returncode stdout stderr =>
        if returncode =? 0 then (Returned tt, h')
        else (Raised (CalledProcessError returncode stdout stderr), h')
    | NotStarted reason => (Raised (OSError reason), h')
    end.

(** [b.decode()] *)
Definition bytes_decode (b : bytes) : M string :=
  match decode env b with
  | Some s => ret s
  | None => raise UnicodeDecodeError
  end.

(** [with tempfile.TemporaryDirectory() as tmpdir: body]: the directory is
    removed however the body ends. *)
Definition with_TemporaryDirectory {A : Type} (body : string -> M A) : M A :=
  fun h =>
    let tmpdir := mkdtemp env h in
    let '(o, h') := body tmpdir (h ++ [EvTempDir tmpdir]) in
    (o, h' ++ [EvCleanup tmpdir]).

Definition extract_header (model mutant0 : string) : M string :=
  let prompt := header_prompt mutant0 in
  header <- model_generate_content model prompt ;;
  t <- candidate_text header ;;
  let header_return := join nl (slice (splitlines t) 1 (-1)) in
  print header_return ;;;
  ret header_return.

Definition finding_bugs (model functional_desc : string) : M GenerationResponse :=
  let prompt := bugs_prompt functional_desc in
  potential_bugs <- model_generate_content model prompt ;;
  ret potential_bugs.

Definition creating_tb (model functional_desc : string)
    (potential_bugs : GenerationResponse) (module_header : string) : M string :=
  bugs_text <- candidate_text potential_bugs ;;
  let new_prompt := tb_prompt functional_desc bugs_text module_header in
  testbench_output <- model_generate_content model new_prompt ;;
  t <- candidate_text testbench_output ;;
  let to_return := join nl (slice (splitlines t) 1 (-1)) in
  ret to_return.

Definition check_verilog_syntax (verilog_code mutant0 top_module : string)
    : M (bool * string) :=
  with_TemporaryDirectory (fun tmpdir =>
    let tb_path := path_join tmpdir "temp_tb.v" in
    write_text tb_path verilog_code ;;;
    let mutant_path := path_join tmpdir "mutant0.v" in
    write_text mutant_path mutant0 ;;;
    let output_path := path_join tmpdir "a.out" in
    try_except
      (subprocess_run
         ["iverilog"; "-g2012"; "-o"; output_path; "-s"; top_module;
          tb_path; mutant_path] ;;;
       print "Syntax is valid." ;;;
       ret (true, ""))
      (fun e =>
         match e with
         | CalledProcessError _ _ stderr =>
             Some (print "Syntax error detected:" ;;;
                   shown <- bytes_decode stderr ;;
                   print shown ;;;
                   message <- bytes_decode stderr ;;
                   ret (false, message))
         | _ => None
         end)).

Definition fix_verilog_syntax (model verilog_code error_message module_header : string)
    : M string :=
  let prompt := fix_prompt verilog_code error_message module_header in
  fixed_code <- model_generate_content model prompt ;;
  t <- candidate_text fixed_code ;;
  let to_return := join nl (slice (splitlines t) 1 (-1)) in
  ret to_return.

(** The loop [while not isGood: ...] of [generate_testbench] and the
    [return to_return] after it.  One unit of fuel pays one iteration. *)
Fixpoint while_not_isGood (fuel : nat) (file_name_to_content : gmap string string)
    (model module_header : string) (isGood : bool) (to_return : string)
    {struct fuel} : M string :=
  if isGood then ret to_return
  else
    match fuel with
    | O => diverge
    | S fuel' =>
        mutant0 <- getitem file_name_to_content "mutant_0.v" ;;
        '(isGood', error) <- check_verilog_syntax to_return mutant0 "tb" ;;
        to_return' <- (if negb isGood'
                       then fix_verilog_syntax model to_return error module_header
                       else ret to_return) ;;
        while_not_isGood fuel' file_name_to_content model module_header
          isGood' to_return'
    end.

Definition generate_testbench (fuel : nat) (file_name_to_content : gmap string string)
    : M string :=
  emit (EvInit "us-central1") ;;;
  let model := "gemini-2.5-pro" in
  functional_desc <- getitem file_name_to_content "specification.md" ;;
  potential_bugs <- finding_bugs model functional_desc ;;
  mutant0 <- getitem file_name_to_content "mutant_0.v" ;;
  module_header <- extract_header model mutant0 ;;
  to_return <- creating_tb model functional_desc potential_bugs module_header ;;
  print to_return ;;;
  let isGood := false in
  while_not_isGood fuel file_name_to_content model module_header isGood to_return.

End Agent.

(** The model that [generate_testbench] asks for. *)
Definition MODEL : string := "gemini-2.5-pro".

(** * The vocabulary of the properties *)

(** ** Reading a history *)

(** The requests made to the text-generation service, oldest first, each
    with what came back. *)
Definition generations (h : Trace) : list (string * result GenerationResponse) :=
  omap (fun ev => match ev with
                  | EvGenerate _ prompt r => Some (prompt, r)
                  | _ => None
                  end) h.

Definition prompts (h : Trace) : list string := (generations h).*1.

(** The launches of the external compiler, oldest first. *)
Definition launches (h : Trace) : list (list string * ProcOutcome) :=
  omap (fun ev => match ev with
                  | EvRun argv o => Some (argv, o)
                  | _ => None
                  end) h.

(** Request [p] was made, and request [q] after it. *)
Definition issued_before (p q : string) (h : Trace) : Prop :=
  exists i j : nat, (i < j)%nat /\ prompts h !! i = Some p /\ prompts h !! j = Some q.

(** A decision procedure for [issued_before] on a list of prompts. *)
Fixpoint precedes (p q : string) (l : list string) : bool :=
  match l with
  | [] => false
  | x :: l' => (String.eqb x p && existsb (String.eqb q) l') || precedes p q l'
  end.

(** A repair request: the repair prompt for some text and some diagnostic,
    with the module header [hdr]. *)
Definition repair_request (hdr : string) (g : string * result GenerationResponse) : Prop :=
  exists verilog_code error_message, g.1 = fix_prompt verilog_code error_message hdr.

(** The requests of a run, by how far the run got: none, the request for
    the bugs, then the request for the header, then the request for the
    testbench and after it repair requests only. *)
Inductive RunRequests (d : gmap string string)
    : list (string * result GenerationResponse) -> Prop :=
  | RR_none : RunRequests d []
  | RR_bugs fd r1 :
      d !! "specification.md" = Some fd ->
      RunRequests d [(bugs_prompt fd, r1)]
  | RR_header fd m potential_bugs r2 :
      d !! "specification.md" = Some fd ->
      d !! "mutant_0.v" = Some m ->
      candidates potential_bugs = [] \/
        (forall header, r2 = Ok header -> candidates header = []) ->
      RunRequests d [(bugs_prompt fd, Ok potential_bugs); (header_prompt m, r2)]
  | RR_synthesis fd m potential_bugs b bs header c cs r3 repairs :
      d !! "specification.md" = Some fd ->
      d !! "mutant_0.v" = Some m ->
      candidates potential_bugs = b :: bs ->
      candidates header = c :: cs ->
      Forall (repair_request (strip_envelope (text c))) repairs ->
      RunRequests d
        ((bugs_prompt fd, Ok potential_bugs)
         :: (header_prompt m, Ok header)
         :: (tb_prompt fd (text b) (strip_envelope (text c)), r3)
         :: repairs).

(** What the [j]-th request of a run is, by its place. *)
Definition request_at (d : gmap string string) (tr : Trace) (j : nat) (p : string) : Prop :=
  match j with
  | 0%nat => exists fd, d !! "specification.md" = Some fd /\ p = bugs_prompt fd
  | 1%nat => exists m, d !! "mutant_0.v" = Some m /\ p = header_prompt m
  | 2%nat =>
      exists fd potential_bugs b bs m header c cs,
        d !! "specification.md" = Some fd /\
        generations tr !! 0%nat = Some (bugs_prompt fd, Ok potential_bugs) /\
        candidates potential_bugs = b :: bs /\
        generations tr !! 1%nat = Some (header_prompt m, Ok header) /\
        candidates header = c :: cs /\
        p = tb_prompt fd (text b) (strip_envelope (text c))
  | _ =>
      exists m header c cs verilog_code error_message,
        generations tr !! 1%nat = Some (header_prompt m, Ok header) /\
        candidates header = c :: cs /\
        p = fix_prompt verilog_code error_message (strip_envelope (text c))
  end.

(** The validations in a stretch of history: the text that was written as
    the testbench, and what became of the compiler that was launched on it. *)
Fixpoint validations (evs : Trace) : list (string * ProcOutcome) :=
  match evs with
  | [] => []
  | EvTempDir _ :: EvWriteText _ verilog_code :: EvWriteText _ _ :: EvRun _ o :: rest =>
      (verilog_code, o) :: validations rest
  | _ :: rest => validations rest
  end.

(** The rounds of the loop that starts with the text [art]: the validations
    and the requests that it makes, in order, and how it ends.  A validation
    that passes ends the loop with its text; one that fails is followed by
    the repair request for its text and its diagnostic, and the loop goes on
    with the text of the answer, its envelope removed. *)
Inductive Rounds (env : Env) (hdr : string)
    : string -> list (string * ProcOutcome) ->
      list (string * result GenerationResponse) -> outcome string -> Prop :=
  | Rounds_pass art out err :
      Rounds env hdr art [(art, Exited 0 out err)] [] (Returned art)
  | Rounds_repair art rc out err message response c cs vs gs o :
      rc <> 0 ->
      decode env err = Some message ->
      candidates response = c :: cs ->
      Rounds env hdr (strip_envelope (text c)) vs gs o ->
      Rounds env hdr art
        ((art, Exited rc out err) :: vs)
        ((fix_prompt art message hdr, Ok response) :: gs) o
  | Rounds_no_answer art rc out err message r e :
      rc <> 0 ->
      decode env err = Some message ->
      r = Err e \/ (exists response, r = Ok response /\ candidates response = [] /\
                                     e = IndexError) ->
      Rounds env hdr art
        [(art, Exited rc out err)] [(fix_prompt art message hdr, r)] (Raised e)
  | Rounds_undecodable art rc out err :
      rc <> 0 ->
      decode env err = None ->
      Rounds env hdr art [(art, Exited rc out err)] [] (Raised UnicodeDecodeError)
  | Rounds_not_started art reason :
      Rounds env hdr art [(art, NotStarted reason)] [] (Raised (OSError reason))
  | Rounds_no_mutant art :
      Rounds env hdr art [] [] (Raised (KeyError "mutant_0.v"))
  | Rounds_out_of_fuel art :
      Rounds env hdr art [] [] OutOfFuel.

(** ** One request, one validation *)

(** What a request gives, by the answer of the environment: the exception
    of the service, [IndexError] when the response has no candidate, or what
    the caller makes of the text of the first candidate. *)
Definition answered {A : Type} (r : result GenerationResponse) (h : Trace)
    (k : string -> outcome A * Trace) : outcome A * Trace :=
  match r with
  | Err e => (Raised e, h)
  | Ok response =>
      match candidates response with
      | [] => (Raised IndexError, h)
      | c :: _ => k (text c)
      end
  end.

(** The command line of one validation. *)
Definition compile_argv (tmpdir top_module : string) : list string :=
  ["iverilog"; "-g2012"; "-o"; path_join tmpdir "a.out"; "-s"; top_module;
   path_join tmpdir "temp_tb.v"; path_join tmpdir "mutant0.v"].

Section Validation.

Variable env : Env.

(** The history at the moment the compiler is launched. *)
Definition before_launch (verilog_code mutant0 : string) (h : Trace) : Trace :=
  let tmpdir := mkdtemp env h in
  h ++ [EvTempDir tmpdir;
        EvWriteText (path_join tmpdir "temp_tb.v") verilog_code;
        EvWriteText (path_join tmpdir "mutant0.v") mutant0].

(** What the external compiler does in the validation of [verilog_code]
    against [mutant0] that starts at history [h]. *)
Definition compiler_outcome (verilog_code mutant0 top_module : string) (h : Trace)
    : ProcOutcome :=
  spawn env (before_launch verilog_code mutant0 h)
    (compile_argv (mkdtemp env h) top_module).

End Validation.

(** ** The words of the design document *)

(** A text with its first line and its last line removed, and the lines
    that remain joined by newlines. *)
Definition without_first_and_last {A : Type} (lines : list A) : list A :=
  removelast (tail lines).

Definition envelope_removed (response_text : string) : string :=
  join nl (without_first_and_last (splitlines response_text)).

(** The literal that the testbench is asked to print. *)
Definition success_marker : string :=
  "$display(" +:+ dq +:+ "TESTS PASSED" +:+ dq +:+ ")".

(** The least that a text must contain to have a module [tb], the success
    marker and a call that ends the simulation. *)
Definition meets_output_contract (artifact : string) : Prop :=
  contains "tb" artifact = true /\
  contains "TESTS PASSED" artifact = true /\
  contains "$finish" artifact = true.

(** The compiler never exits with status zero, and what it writes to its
    standard error can be decoded. *)
Definition never_passes (env : Env) : Prop :=
  forall h argv, exists rc out err message,
    spawn env h argv = Exited rc out err /\ rc <> 0 /\ decode env err = Some message.

(** The service answers every request, with at least one candidate. *)
Definition always_answers (env : Env) : Prop :=
  forall h model prompt, exists c cs,
    generate_content env h model prompt = Ok {| candidates := c :: cs |}.

(** ** Scripted environments

    An environment that answers the n-th request with the n-th element of a
    list and the n-th launch with the n-th status; past the end of a list it
    repeats a default. *)

Definition reply (t : string) : result GenerationResponse :=
  Ok {| candidates := [ {| text := t |} ] |}.

Definition scripted (answers : list (result GenerationResponse))
    (last_answer : result GenerationResponse)
    (statuses : list ProcOutcome) (last_status : ProcOutcome) : Env :=
  {| generate_content h _ _ := nth (length (generations h)) answers last_answer;
     mkdtemp _ := "/tmp/tmpagent";
     spawn h _ := nth (length (launches h)) statuses last_status;
     decode b := Some (String.string_of_list_byte b) |}.

(** Three fenced lines: the envelope and one line of payload. *)
Definition fenced (payload : string) : string :=
  String.concat nl ["```verilog"; payload; "```"].

Definition files (functional_desc mutant0 : string) : gmap string string :=
  <["specification.md" := functional_desc]> (<["mutant_0.v" := mutant0]> ∅).

(** A service that answers with fenced text, and a compiler that rejects the
    first testbench and accepts the second. *)
Definition observed_env : Env :=
  scripted
    [reply "- off by one"; reply (fenced "module m(input a);");
     reply (fenced "module tb; endmodule")]
    (reply (fenced "module tb; initial $finish; endmodule"))
    [Exited 1 [] (String.list_byte_of_string "syntax error")]
    (Exited 0 [] []).

Definition observed_files : gmap string string := files "S" "M".

Definition observed_run : outcome string * Trace :=
  Eval vm_compute in generate_testbench observed_env 2 observed_files [].

(** A service whose answer to the header request is the empty string, and a
    compiler that accepts the first testbench. *)
Definition empty_header_env : Env :=
  scripted
    [reply "- off by one"; reply ""; reply (fenced "module tb; endmodule")]
    (reply (fenced "module tb; endmodule"))
    []
    (Exited 0 [] []).

Definition empty_header_run : outcome string * Trace :=
  Eval vm_compute in generate_testbench empty_header_env 1 observed_files [].

(** A service that answers every request with the same fenced line. *)
Definition one_line_env : Env :=
  scripted [] (reply (fenced "assign x = 1;")) [] (Exited 0 [] []).

(** A compiler that cannot be started. *)
Definition no_compiler_env : Env :=
  scripted [] (reply (fenced "module tb; endmodule")) []
    (NotStarted "No such file or directory: 'iverilog'").

(** A compiler that rejects every testbench. *)
Definition rejecting_env : Env :=
  scripted [] (reply (fenced "module tb; endmodule")) []
    (Exited 2 [] (String.list_byte_of_string "syntax error")).

(** ** Line boundaries, histories and faults: further vocabulary *)

(** A line boundary of [str.splitlines] starts at the head of [s]. *)
Definition starts_with_break (s : string) : bool :=
  match s with
  | EmptyString => false
  | String "013"%char _ => true
  | String "194"%char (String "133"%char _) => true
  | String "226"%char (String "128"%char (String "168"%char _)) => true
  | String "226"%char (String "128"%char (String "169"%char _)) => true
  | String c _ => is_linebreak c
  end.

(** No line boundary starts anywhere in [s]: [s] is one line. *)
Fixpoint no_breaks (s : string) : bool :=
  match s with
  | EmptyString => true
  | String c rest => negb (starts_with_break (String c rest)) && no_breaks rest
  end.

(** The only line boundary in [s] is LF. *)
Fixpoint lf_breaks_only (s : string) : bool :=
  match s with
  | EmptyString => true
  | String c rest =>
      (Ascii.eqb c "010" || negb (starts_with_break (String c rest)))
      && lf_breaks_only rest
  end.

(** A character that is none of the one-byte line boundaries. *)
Definition plain_char (ch : ascii) : Prop :=
  ch <> "013"%char /\ is_linebreak ch = false.

(** The one-byte line boundaries of [s], if any, are LF. *)
Definition lf_terminated (s : string) : Prop :=
  Forall (fun ch => ch = "010"%char \/ plain_char ch) (String.list_ascii_of_string s).

(** Every write and every launch happens inside the one temporary directory
    that is live, under the fixed file names and with the fixed command
    line; the candidate module is written as the mapping has it; a
    directory is created only when none is live, and none is live at the
    end.  [live] is the directory that is live at the start of [evs]. *)
Fixpoint confined (d : gmap string string) (live : option string) (evs : Trace) : Prop :=
  match evs with
  | [] => live = None
  | EvTempDir dir :: rest => live = None /\ confined d (Some dir) rest
  | EvCleanup dir :: rest => live = Some dir /\ confined d None rest
  | EvWriteText path content :: rest =>
      (exists dir,
          live = Some dir /\
          (path = path_join dir "temp_tb.v" \/
           path = path_join dir "mutant0.v" /\ d !! "mutant_0.v" = Some content))
      /\ confined d live rest
  | EvRun argv _ :: rest =>
      (exists dir, live = Some dir /\ argv = compile_argv dir "tb")
      /\ confined d live rest
  | _ :: rest => confined d live rest
  end.

(** An event of a run after its first: no second [vertexai.init], and
    requests to the one model only. *)
Definition after_init (ev : Event) : Prop :=
  match ev with
  | EvInit _ => False
  | EvGenerate model _ _ => model = MODEL
  | _ => True
  end.

(** A validation that failed: the compiler exited with a status other than
    zero. *)
Definition failed (v : string * ProcOutcome) : Prop :=
  exists rc out err, v.2 = Exited rc out err /\ rc <> 0.

(** A service whose answer to the request for the bugs has no candidate. *)
Definition no_candidate_env : Env :=
  scripted [Ok {| candidates := [] |}] (reply (fenced "module m(input a);")) []
    (Exited 0 [] []).

(** A service that answers with the bare header, on one line. *)
Definition bare_header_env : Env :=
  scripted [] (reply "module m(input a, output b);") [] (Exited 0 [] []).

(** The characters of [s] are plain: [s] has no one-byte line boundary. *)
Definition plain_line (s : string) : Prop :=
  Forall plain_char (String.list_ascii_of_string s).

(** A service that answers with CR LF line ends. *)
Definition crlf_env : Env :=
  scripted []
    (reply ("```" +:+ String "013" nl +:+ "module tb;" +:+ String "013" nl
            +:+ "endmodule" +:+ String "013" nl +:+ "```"))
    [] (Exited 0 [] []).

(** The compiler exited with a status other than zero. *)
Definition exited_with_error (o : ProcOutcome) : Prop :=
  exists rc out err, o = Exited rc out err /\ rc <> 0.

(** The request was answered, with at least one candidate. *)
Definition answered_with_text (g : string * result GenerationResponse) : Prop :=
  exists response c cs, g.2 = Ok response /\ candidates response = c :: cs.

(** The lines that were printed, oldest first. *)
Definition printed (h : Trace) : list string :=
  omap (fun ev => match ev with
                  | EvPrint line => Some line
                  | _ => None
                  end) h.

(** What [check_verilog_syntax] prints in a validation. *)
Definition verdict_lines (env : Env) (v : string * ProcOutcome) : list string :=
  match v.2 with
  | Exited rc _ err =>
      if rc =? 0 then ["Syntax is valid."]
      else "Syntax error detected:"
           :: match decode env err with
              | Some message => [message]
              | None => []
              end
  | NotStarted _ => []
  end.

(** ** A text as lines and the boundaries that end them *)

(** The line boundaries of [str.splitlines]: LF, CR, CR LF, VT, FF, FS, GS,
    RS, and NEL, LS and PS in their UTF-8 encodings. *)
Definition boundaries : list string :=
  [ String "010" EmptyString;
    String "013" EmptyString;
    String "013" (String "010" EmptyString);
    String "011" EmptyString;
    String "012" EmptyString;
    String "028" EmptyString;
    String "029" EmptyString;
    String "030" EmptyString;
    String "194" (String "133" EmptyString);
    String "226" (String "128" (String "168" EmptyString));
    String "226" (String "128" (String "169" EmptyString)) ].

(** [s] begins with LF. *)
Definition starts_with_lf (s : string) : bool :=
  match s with
  | String "010"%char _ => true
  | _ => false
  end.

(** A text put together from its lines: each line of [segs] with the
    boundary that ends it, and what follows the last boundary. *)
Fixpoint assemble (segs : list (string * string)) (final : string) : string :=
  match segs with
  | [] => final
  | (line, boundary) :: rest => line +:+ boundary +:+ assemble rest final
  end.

(** The lines have no boundary in them, each is ended by one boundary, and
    a CR that ends a line is not the first half of a CR LF. *)
Fixpoint well_formed (segs : list (string * string)) (final : string) : Prop :=
  match segs with
  | [] => no_breaks final = true
  | (line, boundary) :: rest =>
      no_breaks line = true /\
      In boundary boundaries /\
      (boundary = String "013" EmptyString ->
       starts_with_lf (assemble rest final) = false) /\
      well_formed rest final
  end.

(** The lines of a text so put together: what follows the last boundary is
    a line only when it has characters. *)
Definition lines_of (segs : list (string * string)) (final : string) : list string :=
  segs.*1 ++ match final with
             | EmptyString => []
             | _ => [final]
             end.

(** The lines, with a newline between one and the next. *)
Fixpoint newline_joined (lines : list string) : string :=
  match lines with
  | [] => EmptyString
  | x :: rest =>
      match rest with
      | [] => x
      | _ => x +:+ String "010" (newline_joined rest)
      end
  end.

(** No boundary is completed by the first character of [t]. *)
Definition inert_head (t : string) : bool :=
  match t with
  | String "133"%char _ => false
  | String "128"%char _ => false
  | String "168"%char _ => false
  | String "169"%char _ => false
  | _ => true
  end.

(** The boundary that starts at the head of [t], and what follows it. *)
Definition boundary_at (t : string) : option (string * string) :=
  match t with
  | String "013"%char (String "010"%char rest) =>
      Some (String "013" (String "010" EmptyString), rest)
  | String "194"%char (String "133"%char rest) =>
      Some (String "194" (String "133" EmptyString), rest)
  | String "226"%char (String "128"%char (String "168"%char rest)) =>
      Some (String "226" (String "128" (String "168" EmptyString)), rest)
  | String "226"%char (String "128"%char (String "169"%char rest)) =>
      Some (String "226" (String "128" (String "169" EmptyString)), rest)
  | String c rest =>
      if Ascii.eqb c "013" || is_linebreak c then Some (String c EmptyString, rest)
      else None
  | EmptyString => None
  end.

(** The first line of [t], and the boundary that ends it with what follows,
    if there is one. *)
Fixpoint first_line (t : string) : string * option (string * string) :=
  match t with
  | EmptyString => (EmptyString, None)
  | String c rest =>
      match boundary_at (String c rest) with
      | Some found => (EmptyString, Some found)
      | None => let (line, found) := first_line rest in (String c line, found)
      end
  end.

(** ** Environments with a fault *)

(** A compiler that exits with status 1 and writes the byte FF, which no
    UTF-8 text contains, to its standard error; the decoder refuses it. *)
Definition undecodable_stderr_env : Env :=
  {| generate_content _ _ _ := reply (fenced "module tb; endmodule");
     mkdtemp _ := "/tmp/tmpagent";
     spawn _ _ := Exited 1 [] [Byte.xff];
     decode b := if existsb (Byte.eqb Byte.xff) b then None
                 else Some (String.string_of_list_byte b) |}.

(** A service that answers three requests and raises from then on, and a
    compiler that rejects every testbench. *)
Definition outage_env : Env :=
  scripted
    [reply "- off by one"; reply (fenced "module m(input a);");
     reply (fenced "module tb; endmodule")]
    (Err (ServiceError "503"))
    []
    (Exited 2 [] (String.list_byte_of_string "syntax error")).

(** * Properties *)

(** ** Lines and envelopes *)

Lemma slice_inner {A : Type} (l : list A) :
  slice l 1 (-1) = without_first_and_last l.
Proof.
  unfold slice, without_first_and_last, clamp_index.
  destruct l as [|x l]; [reflexivity|].
  cbn [length tail].
  replace (1 <? 0) with false by reflexivity.
  replace (-1 <? 0) with true by reflexivity.
  rewrite Z.min_l by lia. rewrite Z.max_l by lia.
  change (Z.to_nat 1) with 1%nat. cbn [drop].
  rewrite removelast_firstn_len.
  unfold take. f_equal. lia.
Qed.

Lemma strip_envelope_spec (t : string) : strip_envelope t = envelope_removed t.
Proof. unfold strip_envelope, envelope_removed. now rewrite slice_inner. Qed.

(** With at least two lines the payload is what lies between the first and
    the last; with fewer nothing is left. *)
Lemma without_first_and_last_middle {A : Type} (x y : A) (mid : list A) :
  without_first_and_last (x :: mid ++ [y]) = mid.
Proof. unfold without_first_and_last. cbn [tail]. apply removelast_last. Qed.

Lemma without_first_and_last_short {A : Type} (l : list A) :
  (length l <= 1)%nat -> without_first_and_last l = [].
Proof.
  destruct l as [|x [|y l]]; cbn; intros; try reflexivity; lia.
Qed.

(** The lines of some texts, as [str.splitlines] gives them. *)
Example splitlines_crlf :
  splitlines ("a" +:+ String "013" nl +:+ "b" +:+ nl) = ["a"; "b"].
Proof. reflexivity. Qed.

Example splitlines_empty : splitlines "" = [].
Proof. reflexivity. Qed.

Example splitlines_blank : splitlines (nl +:+ nl +:+ "x") = [""; ""; "x"].
Proof. reflexivity. Qed.

Example slice_inner_four : slice [1; 2; 3; 4] 1 (-1) = [2; 3].
Proof. reflexivity. Qed.

Example slice_inner_one : slice [1] 1 (-1) = [].
Proof. reflexivity. Qed.

Example strip_envelope_fenced :
  strip_envelope (fenced ("module tb;" +:+ nl +:+ "endmodule"))
  = "module tb;" +:+ nl +:+ "endmodule".
Proof. reflexivity. Qed.

Example strip_envelope_two_lines : strip_envelope ("module tb;" +:+ nl +:+ "endmodule") = "".
Proof. reflexivity. Qed.

(** ** Strings *)

Lemma append_nil (s : string) : EmptyString +:+ s = s.
Proof. reflexivity. Qed.

Lemma append_cons (c : ascii) (a b : string) : String c a +:+ b = String c (a +:+ b).
Proof. reflexivity. Qed.

Lemma append_assoc (a b c : string) : (a +:+ b) +:+ c = a +:+ (b +:+ c).
Proof.
  induction a as [|ch a IH]; [reflexivity|].
  rewrite !append_cons. now f_equal.
Qed.

Lemma prefix_refl_app (n rest : string) : String.prefix n (n +:+ rest) = true.
Proof.
  induction n as [|ch n IH].
  - rewrite append_nil. now destruct rest.
  - rewrite append_cons. cbn [String.prefix].
    destruct (ascii_dec ch ch); [exact IH | congruence].
Qed.

Lemma prefix_app_r (n a b : string) :
  String.prefix n a = true -> String.prefix n (a +:+ b) = true.
Proof.
  revert a; induction n as [|ch n IH]; intros a H.
  - now destruct (a +:+ b).
  - destruct a as [|ca a]; [discriminate|].
    rewrite append_cons. cbn [String.prefix] in *.
    destruct (ascii_dec ch ca); [now apply IH | discriminate].
Qed.

Lemma contains_here (n rest : string) : contains n (n +:+ rest) = true.
Proof.
  destruct (n +:+ rest) eqn:E; cbn [contains]; rewrite <- E, prefix_refl_app; reflexivity.
Qed.

Lemma contains_app_r (n a b : string) :
  contains n b = true -> contains n (a +:+ b) = true.
Proof.
  intros H. induction a as [|ch a IH]; [exact H|].
  rewrite append_cons. cbn [contains]. rewrite IH. now rewrite orb_true_r.
Qed.

Lemma contains_app_l (n a b : string) :
  contains n a = true -> contains n (a +:+ b) = true.
Proof.
  induction a as [|ch a IH]; intros H.
  - cbn in H. rewrite orb_false_r in H.
    destruct n; [|discriminate]. rewrite append_nil. now destruct b.
  - cbn [contains] in H. apply orb_true_iff in H. destruct H as [H|H].
    + apply (prefix_app_r _ _ b) in H. rewrite append_cons in *.
      cbn [contains]. now rewrite H.
    + rewrite append_cons. cbn [contains]. rewrite (IH H). now rewrite orb_true_r.
Qed.

Lemma contains_middle (x pre post : string) :
  contains x (pre +:+ x +:+ post) = true.
Proof. apply contains_app_r, contains_here. Qed.

(** ** The components, one call at a time *)

Arguments header_prompt : simpl never.
Arguments bugs_prompt : simpl never.
Arguments tb_prompt : simpl never.
Arguments fix_prompt : simpl never.
Arguments strip_envelope : simpl never.

Section Components.

Variable env : Env.

Lemma extract_header_run (model mutant0 : string) (h : Trace) :
  extract_header env model mutant0 h =
    let r := generate_content env h model (header_prompt mutant0) in
    let h1 := h ++ [EvGenerate model (header_prompt mutant0) r] in
    answered r h1 (fun t =>
      (Returned (strip_envelope t), h1 ++ [EvPrint (strip_envelope t)])).
Proof.
  unfold extract_header, model_generate_content, bind, answered, candidate_text, first.
  cbn zeta. destruct (generate_content env h model (header_prompt mutant0)) as [[[|c cs]]|e];
    reflexivity.
Qed.

Lemma finding_bugs_run (model functional_desc : string) (h : Trace) :
  finding_bugs env model functional_desc h =
    let r := generate_content env h model (bugs_prompt functional_desc) in
    let h1 := h ++ [EvGenerate model (bugs_prompt functional_desc) r] in
    match r with
    | Ok response => (Returned response, h1)
    | Err e => (Raised e, h1)
    end.
Proof.
  unfold finding_bugs, model_generate_content, bind. cbn zeta.
  destruct (generate_content env h model (bugs_prompt functional_desc)); reflexivity.
Qed.

Lemma creating_tb_run (model functional_desc module_header : string)
    (potential_bugs : GenerationResponse) (h : Trace) :
  creating_tb env model functional_desc potential_bugs module_header h =
    match candidates potential_bugs with
    | [] => (Raised IndexError, h)
    | b :: _ =>
        let p := tb_prompt functional_desc (text b) module_header in
        let r := generate_content env h model p in
        let h1 := h ++ [EvGenerate model p r] in
        answered r h1 (fun t => (Returned (strip_envelope t), h1))
    end.
Proof.
  unfold creating_tb, model_generate_content, bind, answered, candidate_text, first.
  destruct (candidates potential_bugs) as [|b bs]; [reflexivity|]. cbn zeta.
  cbn [bind ret].
  destruct (generate_content env h model _) as [[[|c cs]]|e]; reflexivity.
Qed.

Lemma fix_verilog_syntax_run (model verilog_code error_message module_header : string)
    (h : Trace) :
  fix_verilog_syntax env model verilog_code error_message module_header h =
    let p := fix_prompt verilog_code error_message module_header in
    let r := generate_content env h model p in
    let h1 := h ++ [EvGenerate model p r] in
    answered r h1 (fun t => (Returned (strip_envelope t), h1)).
Proof.
  unfold fix_verilog_syntax, model_generate_content, bind, answered, candidate_text, first.
  cbn zeta. destruct (generate_content env h model _) as [[[|c cs]]|e]; reflexivity.
Qed.

Lemma check_verilog_syntax_run (verilog_code mutant0 top_module : string) (h : Trace) :
  check_verilog_syntax env verilog_code mutant0 top_module h =
    let tmpdir := mkdtemp env h in
    let o := compiler_outcome env verilog_code mutant0 top_module h in
    let h1 := before_launch env verilog_code mutant0 h
              ++ [EvRun (compile_argv tmpdir top_module) o] in
    match o with
    | NotStarted reason => (Raised (OSError reason), h1 ++ [EvCleanup tmpdir])
    | Exited returncode _ stderr =>
        if returncode =? 0
        then (Returned (true, ""), h1 ++ [EvPrint "Syntax is valid."; EvCleanup tmpdir])
        else
          match decode env stderr with
          | Some message =>
              (Returned (false, message),
               h1 ++ [EvPrint "Syntax error detected:"; EvPrint message; EvCleanup tmpdir])
          | None =>
              (Raised UnicodeDecodeError,
               h1 ++ [EvPrint "Syntax error detected:"; EvCleanup tmpdir])
          end
    end.
Proof.
  unfold check_verilog_syntax, with_TemporaryDirectory, compiler_outcome, before_launch,
    compile_argv, try_except, subprocess_run, bind, write_text, print, emit, bytes_decode,
    ret, raise.
  cbn zeta. rewrite <- !app_assoc. cbn [app].
  destruct (spawn env _ _) as [rc out err|reason].
  - destruct (rc =? 0); [now rewrite <- !app_assoc|].
    destruct (decode env err); now rewrite <- !app_assoc.
  - now rewrite <- !app_assoc.
Qed.

End Components.

(** ** The run, step by step *)

Section Run.

Variable env : Env.

Lemma loop_done fuel d model hdr art h :
  while_not_isGood env fuel d model hdr true art h = (Returned art, h).
Proof. destruct fuel; reflexivity. Qed.

Lemma loop_out_of_fuel d model hdr art h :
  while_not_isGood env 0 d model hdr false art h = (OutOfFuel, h).
Proof. reflexivity. Qed.

Lemma loop_missing fuel (d : gmap string string) model hdr art h :
  d !! "mutant_0.v" = None ->
  while_not_isGood env (S fuel) d model hdr false art h
  = (Raised (KeyError "mutant_0.v"), h).
Proof.
  intros Hm. cbn [while_not_isGood]. unfold bind at 1, getitem. now rewrite Hm.
Qed.

(** One iteration of the loop, by what the compiler and the service do. *)
Lemma loop_iteration fuel (d : gmap string string) model hdr art m h :
  d !! "mutant_0.v" = Some m ->
  while_not_isGood env (S fuel) d model hdr false art h =
    let tmpdir := mkdtemp env h in
    let o := compiler_outcome env art m "tb" h in
    let h1 := before_launch env art m h ++ [EvRun (compile_argv tmpdir "tb") o] in
    match o with
    | NotStarted reason => (Raised (OSError reason), h1 ++ [EvCleanup tmpdir])
    | Exited returncode _ stderr =>
        if returncode =? 0
        then (Returned art, h1 ++ [EvPrint "Syntax is valid."; EvCleanup tmpdir])
        else
          match decode env stderr with
          | None =>
              (Raised UnicodeDecodeError,
               h1 ++ [EvPrint "Syntax error detected:"; EvCleanup tmpdir])
          | Some message =>
              let h2 := h1 ++ [EvPrint "Syntax error detected:"; EvPrint message;
                               EvCleanup tmpdir] in
              let p := fix_prompt art message hdr in
              let r := generate_content env h2 model p in
              let h3 := h2 ++ [EvGenerate model p r] in
              answered r h3 (fun t =>
                while_not_isGood env fuel d model hdr false (strip_envelope t) h3)
          end
    end.
Proof.
  intros Hm. cbn [while_not_isGood]. unfold bind at 1, getitem. rewrite Hm.
  cbn [ret]. unfold bind at 1. rewrite check_verilog_syntax_run. cbn zeta.
  destruct (compiler_outcome env art m "tb" h) as [rc out err|reason]; [|reflexivity].
  destruct (rc =? 0).
  - cbn [negb]. unfold bind, ret. apply loop_done.
  - destruct (decode env err) as [msg|]; [|reflexivity].
    cbn [negb]. unfold bind at 1. rewrite fix_verilog_syntax_run. cbn zeta.
    unfold answered.
    destruct (generate_content env _ model _) as [[[|c cs]]|e]; reflexivity.
Qed.

(** The straight-line part of [generate_testbench], up to the loop. *)
Lemma generate_testbench_run fuel (d : gmap string string) h :
  generate_testbench env fuel d h =
    let h0 := h ++ [EvInit "us-central1"] in
    match d !! "specification.md" with
    | None => (Raised (KeyError "specification.md"), h0)
    | Some fd =>
        let r1 := generate_content env h0 MODEL (bugs_prompt fd) in
        let h1 := h0 ++ [EvGenerate MODEL (bugs_prompt fd) r1] in
        match r1 with
        | Err e => (Raised e, h1)
        | Ok potential_bugs =>
            match d !! "mutant_0.v" with
            | None => (Raised (KeyError "mutant_0.v"), h1)
            | Some m =>
                let r2 := generate_content env h1 MODEL (header_prompt m) in
                let h2 := h1 ++ [EvGenerate MODEL (header_prompt m) r2] in
                answered r2 h2 (fun t2 =>
                  let hdr := strip_envelope t2 in
                  let h2' := h2 ++ [EvPrint hdr] in
                  match candidates potential_bugs with
                  | [] => (Raised IndexError, h2')
                  | b :: _ =>
                      let p3 := tb_prompt fd (text b) hdr in
                      let r3 := generate_content env h2' MODEL p3 in
                      let h3 := h2' ++ [EvGenerate MODEL p3 r3] in
                      answered r3 h3 (fun t3 =>
                        let art := strip_envelope t3 in
                        while_not_isGood env fuel d MODEL hdr false art
                          (h3 ++ [EvPrint art]))
                  end)
            end
        end
    end.
Proof.
  unfold generate_testbench. unfold bind at 1, emit. unfold bind at 1, getitem.
  cbn zeta. destruct (d !! "specification.md") as [fd|]; [|reflexivity].
  cbn [ret]. unfold bind at 1. rewrite finding_bugs_run. cbn zeta. fold MODEL.
  destruct (generate_content env _ MODEL (bugs_prompt fd)) as [pb|e]; [|reflexivity].
  unfold bind at 1. destruct (d !! "mutant_0.v") as [m|]; [|reflexivity].
  cbn [ret]. unfold bind at 1. rewrite extract_header_run. cbn zeta. unfold answered.
  destruct (generate_content env _ MODEL (header_prompt m)) as [[[|c2 cs2]]|e];
    [reflexivity| |reflexivity].
  cbn [candidates]. unfold bind at 1. rewrite creating_tb_run.
  destruct (candidates pb) as [|b bs]; [reflexivity|]. cbn zeta.
  destruct (generate_content env _ MODEL (tb_prompt _ _ _)) as [[[|c3 cs3]]|e];
    reflexivity.
Qed.

End Run.

(** ** The Artifact Validator *)

(** C4, as the design document states it, fails: the compiler exits with
    status 1, so not successfully, and the validator answers neither Pass nor
    Fail.  What the compiler wrote to its standard error does not decode, and
    [UnicodeDecodeError] leaves [check_verilog_syntax]. *)
Lemma C4_undecodable_stderr_counterexample :
  compiler_outcome undecodable_stderr_env "module tb; endmodule" "M" "tb" []
  = Exited 1 [] [Byte.xff]
  /\ (check_verilog_syntax undecodable_stderr_env "module tb; endmodule" "M" "tb" []).1
     = Raised UnicodeDecodeError
  /\ forall isGood diagnostic,
       (check_verilog_syntax undecodable_stderr_env "module tb; endmodule" "M" "tb" []).1
       <> Returned (isGood, diagnostic).
Proof.
  split; [reflexivity|]. split; [reflexivity|].
  intros isGood diagnostic. discriminate.
Qed.

(** C4, amended.  The validator answers [(True, "")] exactly when the
    compiler process exits with status zero.  When the process exits with
    another status and the captured standard error decodes, it answers
    [False] with the decoded text, unchanged; when the standard error does
    not decode it answers nothing and raises [UnicodeDecodeError].  It
    answers [False] in no other case. *)
Theorem C4_validator_verdict (env : Env) (verilog_code mutant0 top_module : string)
    (h : Trace) :
  let o := compiler_outcome env verilog_code mutant0 top_module h in
  let verdict := (check_verilog_syntax env verilog_code mutant0 top_module h).1 in
  (verdict = Returned (true, "") <-> exists out err, o = Exited 0 out err)
  /\ (forall diagnostic, verdict = Returned (true, diagnostic) -> diagnostic = "")
  /\ (forall rc out err message,
        o = Exited rc out err -> rc <> 0 -> decode env err = Some message ->
        verdict = Returned (false, message))
  /\ (forall rc out err,
        o = Exited rc out err -> rc <> 0 -> decode env err = None ->
        verdict = Raised UnicodeDecodeError)
  /\ (forall message,
        verdict = Returned (false, message) ->
        exists rc out err,
          o = Exited rc out err /\ rc <> 0 /\ decode env err = Some message).
Proof.
  cbn zeta. rewrite check_verilog_syntax_run. cbn zeta.
  destruct (compiler_outcome env verilog_code mutant0 top_module h)
    as [rc out err|reason].
  - destruct (Z.eqb_spec rc 0) as [->|Hrc].
    + cbn [fst]. repeat split.
      * intros _. now exists out, err.
      * intros diagnostic [= <-]. reflexivity.
      * intros rc out' err' message [= <- _ _] Hne. now destruct Hne.
      * intros rc out' err' [= <- _ _] Hne. now destruct Hne.
      * intros message [=].
    + destruct (decode env err) as [msg|] eqn:Hd; cbn [fst]; repeat split.
      * intros [=].
      * intros (out' & err' & [= -> _ _]). now destruct Hrc.
      * intros diagnostic [=].
      * intros rc' out' err' message [= <- <- <-] _ Hm.
        rewrite Hd in Hm. now injection Hm as ->.
      * intros rc' out' err' [= <- <- <-] _ Hm. rewrite Hd in Hm. discriminate.
      * intros message [= <-]. now exists rc, out, err.
      * intros [=].
      * intros (out' & err' & [= -> _ _]). now destruct Hrc.
      * intros diagnostic [=].
      * intros rc' out' err' message [= <- <- <-] _ Hm. rewrite Hd in Hm. discriminate.
      * intros message [=].
  - cbn [fst]. repeat split.
    + intros [=].
    + intros (out & err & [=]).
    + intros diagnostic [=].
    + intros rc out err message [=].
    + intros rc out err [=].
    + intros message [=].
Qed.

(** ** Histories of the loop *)

Lemma generations_app (h k : Trace) : generations (h ++ k) = generations h ++ generations k.
Proof. apply omap_app. Qed.

Lemma launches_app (h k : Trace) : launches (h ++ k) = launches h ++ launches k.
Proof. apply omap_app. Qed.

Lemma prompts_app (h k : Trace) : prompts (h ++ k) = prompts h ++ prompts k.
Proof. unfold prompts. now rewrite generations_app, fmap_app. Qed.

(** Normal forms of the projections of a history that was extended by
    explicit events. *)
Ltac read_history :=
  unfold before_launch in *;
  repeat rewrite launches_app in *;
  repeat rewrite generations_app in *;
  repeat rewrite prompts_app in *;
  cbn [launches generations prompts omap list_omap fmap list_fmap app fst snd] in *;
  repeat rewrite app_nil_r in *.

(** Case analysis on one iteration of the loop in hypothesis [H]. *)
Ltac iterate_in H env d :=
  let Hm := fresh "Hm" in
  destruct (d !! "mutant_0.v") as [?m|] eqn:Hm;
  [ rewrite (loop_iteration env _ d _ _ _ _ _ Hm) in H; cbn zeta in H
  | rewrite (loop_missing env _ d _ _ _ _ Hm) in H ].

Section Loop.

Variable env : Env.
Variable d : gmap string string.
Variable model hdr : string.

(** A launch that failed to start ends the loop with that fault. *)
Lemma loop_launch_failure fuel : forall isGood art h o tr,
  while_not_isGood env fuel d model hdr isGood art h = (o, tr) ->
  forall argv reason,
    (argv, NotStarted reason) ∈ launches tr ->
    (argv, NotStarted reason) ∈ launches h \/ o = Raised (OSError reason).
Proof.
  induction fuel as [|fuel IH]; intros [|] art h o tr Hrun argv reason Hin.
  - rewrite loop_done in Hrun. injection Hrun as <- <-. now left.
  - rewrite loop_out_of_fuel in Hrun. injection Hrun as <- <-. now left.
  - rewrite loop_done in Hrun. injection Hrun as <- <-. now left.
  - iterate_in Hrun env d; [|injection Hrun as <- <-; now left].
    destruct (compiler_outcome env art m "tb" h) as [rc out err|why].
    + destruct (rc =? 0).
      { injection Hrun as <- <-. read_history.
        apply elem_of_app in Hin as [Hin|Hin]; [now left|].
        apply list_elem_of_singleton in Hin. discriminate. }
      destruct (decode env err) as [msg|].
      2:{ injection Hrun as <- <-. read_history.
          apply elem_of_app in Hin as [Hin|Hin]; [now left|].
          apply list_elem_of_singleton in Hin. discriminate. }
      unfold answered in Hrun.
      destruct (generate_content env _ model _) as [[[|c cs]]|e].
      * injection Hrun as <- <-. read_history.
        apply elem_of_app in Hin as [Hin|Hin]; [now left|].
        apply list_elem_of_singleton in Hin. discriminate.
      * destruct (IH _ _ _ _ _ Hrun _ _ Hin) as [Hold|Ho]; [|now right].
        read_history.
        apply elem_of_app in Hold as [Hold|Hold]; [now left|].
        apply list_elem_of_singleton in Hold. discriminate.
      * injection Hrun as <- <-. read_history.
        apply elem_of_app in Hin as [Hin|Hin]; [now left|].
        apply list_elem_of_singleton in Hin. discriminate.
    + injection Hrun as <- <-. read_history.
      apply elem_of_app in Hin as [Hin|Hin]; [now left|].
      apply list_elem_of_singleton in Hin. injection Hin as _ ->. now right.
Qed.

End Loop.

(** Case analysis on the straight-line part of a run in hypothesis [H]: what
    is left is a fault before the loop, or the loop itself. *)
Ltac run_cases H :=
  rewrite generate_testbench_run in H; cbn zeta in H; unfold answered in H;
  repeat case_match.

(** C7.  When the compiler process cannot be started the validator gives no
    verdict at all, neither Pass nor Fail: the [OSError] leaves
    [check_verilog_syntax], and a run in whose history a launch failed has
    ended with that [OSError]. *)
Theorem C7_launch_fault_propagates (env : Env) :
  (forall verilog_code mutant0 top_module h reason,
      compiler_outcome env verilog_code mutant0 top_module h = NotStarted reason ->
      (check_verilog_syntax env verilog_code mutant0 top_module h).1
      = Raised (OSError reason))
  /\ (forall fuel (d : gmap string string) o tr argv reason,
      generate_testbench env fuel d [] = (o, tr) ->
      (argv, NotStarted reason) ∈ launches tr ->
      o = Raised (OSError reason)).
Proof.
  split.
  - intros code m top h reason Ho. rewrite check_verilog_syntax_run. cbn zeta.
    now rewrite Ho.
  - intros fuel d o tr argv reason H Hin. run_cases H.
    all: try (injection H as <- <-; read_history; now apply elem_of_nil in Hin).
    destruct (loop_launch_failure env d _ _ _ _ _ _ _ _ H _ _ Hin) as [Hold|Ho];
      [|exact Ho].
    read_history. now apply elem_of_nil in Hold.
Qed.

(** ** The loop ends on Pass only *)

Section LoopUntilPass.

Variable env : Env.
Variable d : gmap string string.
Variable model hdr : string.

Lemma loop_returns_validated fuel : forall art h a tr,
  while_not_isGood env fuel d model hdr false art h = (Returned a, tr) ->
  exists m h',
    d !! "mutant_0.v" = Some m /\
    check_verilog_syntax env a m "tb" h' = (Returned (true, ""), tr).
Proof.
  induction fuel as [|fuel IH]; intros art h a tr Hrun.
  - rewrite loop_out_of_fuel in Hrun. discriminate.
  - iterate_in Hrun env d; [|discriminate].
    destruct (compiler_outcome env art m "tb" h) as [rc out err|why] eqn:Ho;
      [|discriminate].
    destruct (rc =? 0) eqn:Hrc.
    + injection Hrun as <- <-. exists m, h. split; [reflexivity|].
      rewrite check_verilog_syntax_run. cbn zeta. now rewrite Ho, Hrc.
    + destruct (decode env err) as [msg|]; [|discriminate].
      unfold answered in Hrun.
      destruct (generate_content env _ model _) as [[[|c cs]]|e]; try discriminate.
      exact (IH _ _ _ _ Hrun).
Qed.

Lemma loop_on_fail fuel art m h diagnostic h1 :
  d !! "mutant_0.v" = Some m ->
  check_verilog_syntax env art m "tb" h = (Returned (false, diagnostic), h1) ->
  while_not_isGood env (S fuel) d model hdr false art h
  = (art' <- fix_verilog_syntax env model art diagnostic hdr ;;
     while_not_isGood env fuel d model hdr false art') h1.
Proof.
  intros Hm Hcheck. cbn [while_not_isGood]. unfold bind at 1, getitem. rewrite Hm.
  cbn [ret]. unfold bind at 1. rewrite Hcheck. reflexivity.
Qed.

Lemma loop_diverges fuel :
  never_passes env -> always_answers env ->
  forall art h m,
    d !! "mutant_0.v" = Some m ->
    exists tr,
      while_not_isGood env fuel d model hdr false art h = (OutOfFuel, tr) /\
      length (launches tr) = (length (launches h) + fuel)%nat.
Proof.
  intros Hfail Hans. induction fuel as [|fuel IH]; intros art h m Hm.
  - exists h. split; [reflexivity | lia].
  - rewrite (loop_iteration env _ d _ _ _ _ _ Hm). cbn zeta.
    unfold compiler_outcome.
    destruct (Hfail (before_launch env art m h) (compile_argv (mkdtemp env h) "tb"))
      as (rc & out & err & msg & -> & Hrc & ->).
    apply Z.eqb_neq in Hrc. rewrite Hrc.
    match goal with
    | |- context [generate_content env ?h' model ?p] =>
        destruct (Hans h' model p) as (c & cs & ->)
    end.
    unfold answered. cbn [candidates].
    match goal with
    | |- context [while_not_isGood env fuel d model hdr false ?a ?h'] =>
        destruct (IH a h' m Hm) as (tr & -> & Hlen)
    end.
    exists tr. split; [reflexivity|]. rewrite Hlen. read_history.
    rewrite length_app. cbn [length]. lia.
Qed.

End LoopUntilPass.

(** The history that the loop adds is a sequence of rounds. *)
Lemma loop_rounds (env : Env) (d : gmap string string) (model hdr : string) fuel :
  forall art h o tr,
    while_not_isGood env fuel d model hdr false art h = (o, tr) ->
    exists evs,
      tr = h ++ evs /\ Rounds env hdr art (validations evs) (generations evs) o.
Proof.
  induction fuel as [|fuel IH]; intros art h o tr Hrun.
  - rewrite loop_out_of_fuel in Hrun. injection Hrun as <- <-.
    exists []. rewrite app_nil_r. split; [reflexivity | constructor].
  - iterate_in Hrun env d.
    2:{ injection Hrun as <- <-. exists []. rewrite app_nil_r.
        split; [reflexivity | constructor]. }
    unfold before_launch in Hrun.
    destruct (compiler_outcome env art m "tb" h) as [rc out err|why].
    2:{ injection Hrun as <- <-. eexists. rewrite <- !app_assoc.
        split; [reflexivity | cbn; constructor]. }
    destruct (Z.eqb_spec rc 0) as [->|Hrc].
    { injection Hrun as <- <-. eexists. rewrite <- !app_assoc.
      split; [reflexivity | cbn; constructor]. }
    destruct (decode env err) as [msg|] eqn:Hd.
    2:{ injection Hrun as <- <-. eexists. rewrite <- !app_assoc.
        split; [reflexivity | cbn; now constructor]. }
    unfold answered in Hrun.
    destruct (generate_content env _ model _) as [[[|c cs]]|e] eqn:Hg.
    + injection Hrun as <- <-. eexists. rewrite <- !app_assoc.
      split; [reflexivity|]. cbn. apply Rounds_no_answer with (message := msg);
        try assumption.
      right. now eexists.
    + destruct (IH _ _ _ _ Hrun) as (evs & -> & Hrounds).
      eexists. rewrite <- !app_assoc. split; [reflexivity|]. cbn.
      eapply Rounds_repair; try eassumption. reflexivity.
    + injection Hrun as <- <-. eexists. rewrite <- !app_assoc.
      split; [reflexivity|]. cbn. apply Rounds_no_answer with (message := msg);
        try assumption.
      now left.
Qed.

Lemma passed_validation_launch (env : Env) (a m : string) (h tr : Trace) :
  check_verilog_syntax env a m "tb" h = (Returned (true, ""), tr) ->
  exists argv out err, last (launches tr) = Some (argv, Exited 0 out err).
Proof.
  rewrite check_verilog_syntax_run. cbn zeta.
  destruct (compiler_outcome env a m "tb" h) as [rc out err|why]; [|discriminate].
  destruct (Z.eqb_spec rc 0) as [->|Hrc].
  - intros [= <-]. read_history. rewrite last_snoc. now eexists _, _, _.
  - destruct (decode env err); discriminate.
Qed.

(** The rounds of a run that got as far as its first testbench. *)
Lemma run_rounds (env : Env) (fuel : nat) (d : gmap string string)
    (o : outcome string) (tr : Trace) p response c cs :
  generate_testbench env fuel d [] = (o, tr) ->
  generations tr !! 2%nat = Some (p, Ok response) ->
  candidates response = c :: cs ->
  exists hdr,
    Rounds env hdr (strip_envelope (text c)) (validations tr)
      (drop 3 (generations tr)) o.
Proof.
  intros H Hg Hc. run_cases H.
  all: try (injection H as <- <-; read_history; cbn in Hg; congruence).
  destruct (loop_rounds _ _ _ _ _ _ _ _ _ H) as (evs & -> & Hrounds).
  rewrite <- !app_assoc in Hg |- *. read_history. cbn in Hg |- *.
  apply (inj Some) in Hg. apply pair_equal_spec in Hg as [_ [= <-]].
  match goal with
  | Ha : candidates ?r = _ :: _ |- _ =>
      rewrite Hc in Ha; injection Ha as <- _
  end.
  eexists. exact Hrounds.
Qed.

(** More fuel does not change a run that has ended. *)
Lemma loop_fuel_mono (env : Env) (d : gmap string string) (model hdr : string) fuel :
  forall isGood art h o tr,
    while_not_isGood env fuel d model hdr isGood art h = (o, tr) ->
    o <> OutOfFuel ->
    forall more, while_not_isGood env (fuel + more) d model hdr isGood art h = (o, tr).
Proof.
  induction fuel as [|fuel IH]; intros [|] art h o tr Hrun Ho more.
  - rewrite loop_done in *. exact Hrun.
  - rewrite loop_out_of_fuel in Hrun. injection Hrun as <- <-. now destruct Ho.
  - rewrite loop_done in *. exact Hrun.
  - cbn [Nat.add]. iterate_in Hrun env d.
    + rewrite (loop_iteration env _ d _ _ _ _ _ Hm). cbn zeta.
      destruct (compiler_outcome env art m "tb" h) as [rc out err|why]; [|exact Hrun].
      destruct (rc =? 0); [exact Hrun|].
      destruct (decode env err) as [msg|]; [|exact Hrun].
      unfold answered in *.
      destruct (generate_content env _ model _) as [[[|c cs]]|e]; try exact Hrun.
      now apply IH.
    + now rewrite (loop_missing env _ d _ _ _ _ Hm).
Qed.

Lemma generate_testbench_fuel_mono (env : Env) (d : gmap string string) fuel o tr :
  generate_testbench env fuel d [] = (o, tr) ->
  o <> OutOfFuel ->
  forall more, generate_testbench env (fuel + more) d [] = (o, tr).
Proof.
  intros H Ho more. rewrite generate_testbench_run in *. cbn zeta in *.
  unfold answered in *. repeat case_match; try exact H.
  now apply loop_fuel_mono.
Qed.

(** C2.  A run that returns gives back the very text on which the last
    validation answered Pass.  A validation that answers Fail is followed by
    the repair request for that text and that diagnostic, and then by the
    next validation: the validations and the repair requests in the history
    of a run are the rounds of the loop.  Nothing bounds the number of
    rounds: a run in whose history no compilation succeeded has not
    returned, and against a compiler that never succeeds the run uses up any
    fuel, one validation per unit. *)
Theorem C2_returns_only_after_pass (env : Env) (d : gmap string string) :
  (forall fuel a tr,
      generate_testbench env fuel d [] = (Returned a, tr) ->
      exists m h,
        d !! "mutant_0.v" = Some m /\
        check_verilog_syntax env a m "tb" h = (Returned (true, ""), tr))
  /\ (forall fuel hdr art m h diagnostic h1,
      d !! "mutant_0.v" = Some m ->
      check_verilog_syntax env art m "tb" h = (Returned (false, diagnostic), h1) ->
      while_not_isGood env (S fuel) d MODEL hdr false art h
      = (art' <- fix_verilog_syntax env MODEL art diagnostic hdr ;;
         while_not_isGood env fuel d MODEL hdr false art') h1)
  /\ (forall fuel o tr p response c cs,
      generate_testbench env fuel d [] = (o, tr) ->
      generations tr !! 2%nat = Some (p, Ok response) ->
      candidates response = c :: cs ->
      exists hdr,
        Rounds env hdr (strip_envelope (text c)) (validations tr)
          (drop 3 (generations tr)) o)
  /\ (forall fuel o tr,
      generate_testbench env fuel d [] = (o, tr) ->
      (forall argv out err, (argv, Exited 0 out err) ∉ launches tr) ->
      forall a, o <> Returned a)
  /\ (never_passes env -> always_answers env ->
      forall functional_desc m,
        d !! "specification.md" = Some functional_desc ->
        d !! "mutant_0.v" = Some m ->
        forall fuel, exists tr,
          generate_testbench env fuel d [] = (OutOfFuel, tr) /\
          length (launches tr) = fuel).
Proof.
  assert (Hret : forall fuel a tr,
      generate_testbench env fuel d [] = (Returned a, tr) ->
      exists m h,
        d !! "mutant_0.v" = Some m /\
        check_verilog_syntax env a m "tb" h = (Returned (true, ""), tr)).
  { intros fuel a tr H. run_cases H; try discriminate.
    destruct (loop_returns_validated env d _ _ _ _ _ _ _ H) as (m & h' & Hm & Hc).
    exists m, h'. split; [congruence | exact Hc]. }
  split; [exact Hret|]. split; [|split; [|split]].
  - intros fuel hdr art m h diagnostic h1. apply loop_on_fail.
  - intros fuel o tr p response c cs H Hg Hc. exact (run_rounds _ _ _ _ _ _ _ _ _ H Hg Hc).
  - intros fuel o tr H Hnone a ->.
    destruct (Hret _ _ _ H) as (m & h & _ & Hcheck).
    destruct (passed_validation_launch _ _ _ _ _ Hcheck) as (argv & out & err & Hlast).
    apply (Hnone argv out err). eapply last_Some_elem_of, Hlast.
  - intros Hfail Hans fd m Hfd Hm fuel.
    rewrite generate_testbench_run. cbn zeta. rewrite Hfd, Hm.
    destruct (Hans ([] ++ [EvInit "us-central1"]) MODEL (bugs_prompt fd))
      as (c1 & cs1 & ->).
    match goal with
    | |- context [generate_content env ?h' MODEL (header_prompt m)] =>
        destruct (Hans h' MODEL (header_prompt m)) as (c2 & cs2 & ->)
    end.
    unfold answered. cbn [candidates].
    match goal with
    | |- context [generate_content env ?h' MODEL ?p] =>
        destruct (Hans h' MODEL p) as (c3 & cs3 & ->)
    end.
    cbn [candidates].
    match goal with
    | |- context [while_not_isGood env fuel d MODEL ?hd false ?a ?h'] =>
        destruct (loop_diverges env d MODEL hd fuel Hfail Hans a h' m Hm)
          as (tr & -> & Hlen)
    end.
    exists tr. split; [reflexivity|]. rewrite Hlen. read_history. reflexivity.
Qed.

(** ** The requests of a run *)

(** The four kinds of prompt differ in their first characters. *)
Lemma header_prompt_head m : String.get 0 (header_prompt m) = Some "Y"%char.
Proof. reflexivity. Qed.

Lemma bugs_prompt_head fd :
  String.get 0 (bugs_prompt fd) = Some "010"%char /\
  String.get 5 (bugs_prompt fd) = Some "Y"%char /\
  String.get 57 (bugs_prompt fd) = Some "G"%char.
Proof. repeat split; reflexivity. Qed.

Lemma tb_prompt_head fd bugs hdr :
  String.get 0 (tb_prompt fd bugs hdr) = Some "010"%char /\
  String.get 5 (tb_prompt fd bugs hdr) = Some "Y"%char /\
  String.get 57 (tb_prompt fd bugs hdr) = Some "010"%char.
Proof. repeat split; reflexivity. Qed.

Lemma fix_prompt_head code err hdr :
  String.get 0 (fix_prompt code err hdr) = Some "010"%char /\
  String.get 5 (fix_prompt code err hdr) = Some "G"%char.
Proof. repeat split; reflexivity. Qed.

Lemma fix_prompt_not_header code err hdr m : fix_prompt code err hdr <> header_prompt m.
Proof.
  intros E. pose proof (header_prompt_head m) as H. rewrite <- E in H.
  rewrite (proj1 (fix_prompt_head _ _ _)) in H. discriminate.
Qed.

Lemma fix_prompt_not_bugs code err hdr fd : fix_prompt code err hdr <> bugs_prompt fd.
Proof.
  intros E. pose proof (proj1 (proj2 (bugs_prompt_head fd))) as H. rewrite <- E in H.
  rewrite (proj2 (fix_prompt_head _ _ _)) in H. discriminate.
Qed.

Lemma fix_prompt_not_tb code err hdr fd bugs hdr' :
  fix_prompt code err hdr <> tb_prompt fd bugs hdr'.
Proof.
  intros E. pose proof (proj1 (proj2 (tb_prompt_head fd bugs hdr'))) as H.
  rewrite <- E in H. rewrite (proj2 (fix_prompt_head _ _ _)) in H. discriminate.
Qed.

Lemma tb_prompt_not_header fd bugs hdr m : tb_prompt fd bugs hdr <> header_prompt m.
Proof.
  intros E. pose proof (header_prompt_head m) as H. rewrite <- E in H.
  rewrite (proj1 (tb_prompt_head _ _ _)) in H. discriminate.
Qed.

Lemma tb_prompt_not_bugs fd bugs hdr fd' : tb_prompt fd bugs hdr <> bugs_prompt fd'.
Proof.
  intros E. pose proof (proj2 (proj2 (bugs_prompt_head fd'))) as H. rewrite <- E in H.
  rewrite (proj2 (proj2 (tb_prompt_head _ _ _))) in H. discriminate.
Qed.

Lemma header_prompt_not_bugs m fd : header_prompt m <> bugs_prompt fd.
Proof.
  intros E. pose proof (proj1 (bugs_prompt_head fd)) as H. rewrite <- E in H.
  rewrite header_prompt_head in H. discriminate.
Qed.

Lemma loop_generations (env : Env) (d : gmap string string) (model hdr : string) fuel :
  forall isGood art h o tr,
    while_not_isGood env fuel d model hdr isGood art h = (o, tr) ->
    exists repairs,
      generations tr = generations h ++ repairs /\ Forall (repair_request hdr) repairs.
Proof.
  assert (Hstop : forall h k : Trace, generations k = [] ->
            exists repairs, generations (h ++ k) = generations h ++ repairs /\
                            Forall (repair_request hdr) repairs).
  { intros h k Hk. exists []. rewrite generations_app, Hk. split; [reflexivity|constructor]. }
  assert (Hstop0 : forall h : Trace,
            exists repairs, generations h = generations h ++ repairs /\
                            Forall (repair_request hdr) repairs).
  { intros h. exists []. rewrite app_nil_r. split; [reflexivity|constructor]. }
  induction fuel as [|fuel IH]; intros [|] art h o tr Hrun.
  - rewrite loop_done in Hrun. injection Hrun as <- <-. apply Hstop0.
  - rewrite loop_out_of_fuel in Hrun. injection Hrun as <- <-. apply Hstop0.
  - rewrite loop_done in Hrun. injection Hrun as <- <-. apply Hstop0.
  - iterate_in Hrun env d; [|injection Hrun as <- <-; apply Hstop0].
    unfold before_launch in Hrun.
    destruct (compiler_outcome env art m "tb" h) as [rc out err|why].
    2:{ injection Hrun as <- <-. rewrite <- !app_assoc. now apply Hstop. }
    destruct (rc =? 0).
    { injection Hrun as <- <-. rewrite <- !app_assoc. now apply Hstop. }
    destruct (decode env err) as [msg|].
    2:{ injection Hrun as <- <-. rewrite <- !app_assoc. now apply Hstop. }
    unfold answered in Hrun.
    assert (Hfix : forall r, repair_request hdr (fix_prompt art msg hdr, r)).
    { intros r. now exists art, msg. }
    destruct (generate_content env _ model _) as [[[|c cs]]|e] eqn:Hg.
    + injection Hrun as <- <-. eexists [_]. read_history. split; [reflexivity|].
      repeat constructor. apply Hfix.
    + destruct (IH _ _ _ _ _ Hrun) as (repairs & Hgen & Hall).
      eexists (_ :: repairs). split.
      * rewrite Hgen. read_history. rewrite <- app_assoc. reflexivity.
      * constructor; [apply Hfix | exact Hall].
    + injection Hrun as <- <-. eexists [_]. read_history. split; [reflexivity|].
      repeat constructor. apply Hfix.
Qed.

Lemma run_requests (env : Env) fuel (d : gmap string string) o tr :
  generate_testbench env fuel d [] = (o, tr) ->
  RunRequests d (generations tr) /\
  (forall a, o = Returned a -> (3 <= length (generations tr))%nat).
Proof.
  intros H. run_cases H.
  all: try (injection H as <- <-; read_history;
            split;
            [ econstructor; eauto;
              first [ left; assumption
                    | right; intros ? [= <-]; assumption
                    | right; intros ? [=] ]
            | intros ? [=] ]).
  destruct (loop_generations _ _ _ _ _ _ _ _ _ _ H) as (repairs & -> & Hall).
  read_history. split.
  - econstructor; eauto.
  - intros _ _. cbn [length]. lia.
Qed.

Lemma repairs_lookup (hdr : string) (repairs : list (string * result GenerationResponse))
    (k : nat) (p : string) :
  Forall (repair_request hdr) repairs ->
  repairs.*1 !! k = Some p ->
  exists verilog_code error_message, p = fix_prompt verilog_code error_message hdr.
Proof.
  intros Hall Hk. rewrite list_lookup_fmap in Hk.
  destruct (repairs !! k) as [g|] eqn:Hg; [|discriminate].
  injection Hk as <-. exact (proj1 (Forall_lookup _ _) Hall k g Hg).
Qed.

Lemma precedes_complete (p q : string) (l : list string) :
  (exists i j : nat, (i < j)%nat /\ l !! i = Some p /\ l !! j = Some q) ->
  precedes p q l = true.
Proof.
  induction l as [|x l IH]; intros (i & j & Hlt & Hi & Hj).
  - discriminate.
  - cbn [precedes]. apply orb_true_iff. destruct i as [|i].
    + left. injection Hi as ->. rewrite String.eqb_refl. cbn [andb].
      destruct j as [|j]; [lia|]. cbn in Hj.
      apply existsb_exists. exists q. split; [|apply String.eqb_refl].
      apply list_elem_of_In. eapply list_elem_of_lookup_2, Hj.
    + right. apply IH. destruct j as [|j]; [lia|].
      exists i, j. repeat split; [lia | exact Hi | exact Hj].
Qed.

Lemma observed_run_eq :
  generate_testbench observed_env 2 observed_files [] = observed_run.
Proof. vm_compute. reflexivity. Qed.

Example observed_run_validations :
  validations observed_run.2
  = [("module tb; endmodule", Exited 1 [] (String.list_byte_of_string "syntax error"));
     ("module tb; initial $finish; endmodule", Exited 0 [] [])].
Proof. reflexivity. Qed.

(** ** The order of the first requests *)

(** Close a goal in which hypothesis [E] equates two prompts of different
    kinds. *)
Ltac clash E :=
  first
    [ now apply header_prompt_not_bugs in E
    | now apply tb_prompt_not_header in E
    | now apply tb_prompt_not_bugs in E
    | now apply fix_prompt_not_header in E
    | now apply fix_prompt_not_bugs in E
    | now apply fix_prompt_not_tb in E
    | symmetry in E;
      first
        [ now apply header_prompt_not_bugs in E
        | now apply tb_prompt_not_header in E
        | now apply tb_prompt_not_bugs in E
        | now apply fix_prompt_not_header in E
        | now apply fix_prompt_not_bugs in E
        | now apply fix_prompt_not_tb in E ] ].

(** The cases of [RunRequests] for the requests of history [tr]. *)
Ltac shape_cases Hshape :=
  let Hg := fresh "Hg" in
  inversion Hshape as
    [ Hg | ?fd ?r1 ?Hfd Hg | ?fd ?m ?pb ?r2 ?Hfd ?Hm ?Hwhy Hg
    | ?fd ?m ?pb ?b ?bs ?hd ?c ?cs ?r3 ?repairs ?Hfd ?Hm ?Hb ?Hc ?Hall Hg ];
  rewrite <- Hg in *; clear Hg; simplify_eq.

(** C1, as the design document states it, fails: in the observed run the
    request for the header is not issued before the request for the bug
    hypotheses; it is issued after it. *)
Lemma C1_header_first_counterexample :
  generate_testbench observed_env 2 observed_files [] = observed_run
  /\ observed_run.1 = Returned "module tb; initial $finish; endmodule"
  /\ ~ issued_before (header_prompt "M") (bugs_prompt "S") observed_run.2
  /\ issued_before (bugs_prompt "S") (header_prompt "M") observed_run.2.
Proof.
  split; [vm_compute; reflexivity|]. split; [reflexivity|]. split.
  - intros H. apply precedes_complete in H. vm_compute in H. discriminate.
  - exists 0%nat, 1%nat. split; [lia|]. split; reflexivity.
Qed.

Lemma run_request_at (env : Env) (fuel : nat) (d : gmap string string)
    (o : outcome string) (tr : Trace) :
  generate_testbench env fuel d [] = (o, tr) ->
  forall j p, prompts tr !! j = Some p -> request_at d tr j p.
Proof.
  intros H j p Hj. destruct (run_requests _ _ _ _ _ H) as [Hshape _].
  unfold prompts in Hj. unfold request_at.
  shape_cases Hshape.
  - destruct j as [|j]; cbn in Hj; [|discriminate].
    apply (inj Some) in Hj. subst p. eexists; split; [eassumption | reflexivity].
  - destruct j as [|[|j]]; cbn in Hj; [| |discriminate];
      apply (inj Some) in Hj; subst p; eexists; (split; [eassumption | reflexivity]).
  - destruct j as [|[|[|j]]]; cbn in Hj.
    + apply (inj Some) in Hj; subst p; eexists; (split; [eassumption | reflexivity]).
    + apply (inj Some) in Hj; subst p; eexists; (split; [eassumption | reflexivity]).
    + apply (inj Some) in Hj; subst p.
      eexists _, _, _, _, _, _, _, _. repeat split; eassumption || reflexivity.
    + destruct (repairs_lookup _ _ _ _ Hall Hj) as (code & err & ->).
      eexists _, _, _, _, _, _. repeat split; eassumption || reflexivity.
Qed.

(** Each kind of request has its place: a request for the bugs is the
    first request, a request for a header the second, a request for a
    testbench the third. *)
Lemma run_prompt_places (env : Env) (fuel : nat) (d : gmap string string)
    (o : outcome string) (tr : Trace) :
  generate_testbench env fuel d [] = (o, tr) ->
  (forall j fd, prompts tr !! j = Some (bugs_prompt fd) -> j = 0%nat)
  /\ (forall j m, prompts tr !! j = Some (header_prompt m) -> j = 1%nat)
  /\ (forall j fd bugs hdr, prompts tr !! j = Some (tb_prompt fd bugs hdr) -> j = 2%nat).
Proof.
  intros H. repeat split.
  - intros j fd Hj. pose proof (run_request_at _ _ _ _ _ H _ _ Hj) as Hat.
    destruct j as [|[|[|j]]]; [reflexivity| | |]; cbn in Hat.
    + destruct Hat as (m & _ & E). clash E.
    + destruct Hat as (? & ? & ? & ? & ? & ? & ? & ? & _ & _ & _ & _ & _ & E). clash E.
    + destruct Hat as (? & ? & ? & ? & ? & ? & _ & _ & E). clash E.
  - intros j m Hj. pose proof (run_request_at _ _ _ _ _ H _ _ Hj) as Hat.
    destruct j as [|[|[|j]]]; [|reflexivity| |]; cbn in Hat.
    + destruct Hat as (fd & _ & E). clash E.
    + destruct Hat as (? & ? & ? & ? & ? & ? & ? & ? & _ & _ & _ & _ & _ & E). clash E.
    + destruct Hat as (? & ? & ? & ? & ? & ? & _ & _ & E). clash E.
  - intros j fd bugs hdr Hj. pose proof (run_request_at _ _ _ _ _ H _ _ Hj) as Hat.
    destruct j as [|[|[|j]]]; [| |reflexivity|]; cbn in Hat.
    + destruct Hat as (fd' & _ & E). clash E.
    + destruct Hat as (m & _ & E). clash E.
    + destruct Hat as (? & ? & ? & ? & ? & ? & _ & _ & E). clash E.
Qed.

Lemma generations_prompt (tr : Trace) (j : nat) (p : string) (r : result GenerationResponse) :
  generations tr !! j = Some (p, r) -> prompts tr !! j = Some p.
Proof. intros H. unfold prompts. rewrite list_lookup_fmap, H. reflexivity. Qed.

(** The third request is the request for the testbench, and the two before
    it are the request for the bugs and the request for the header. *)
Lemma run_third_request (env : Env) (fuel : nat) (d : gmap string string)
    (o : outcome string) (tr : Trace) (p : string) :
  generate_testbench env fuel d [] = (o, tr) ->
  prompts tr !! 2%nat = Some p ->
  exists fd m bugs hdr,
    p = tb_prompt fd bugs hdr /\
    prompts tr !! 0%nat = Some (bugs_prompt fd) /\
    prompts tr !! 1%nat = Some (header_prompt m).
Proof.
  intros H Hp. pose proof (run_request_at _ _ _ _ _ H _ _ Hp) as Hat. cbn in Hat.
  destruct Hat as (fd & pb & b & bs & m & hd & c & cs & _ & H0 & _ & H1 & _ & ->).
  exists fd, m, (text b), (strip_envelope (text c)).
  split; [reflexivity|]. split; eapply generations_prompt; eassumption.
Qed.

(** C1, amended.  In every run the request for the bug hypotheses comes
    first, the request for the header second and the request for the
    testbench third: a header request is never issued before a bugs request,
    and a run that returns has issued the three in this order. *)
Theorem C1_bugs_header_synthesis_order (env : Env) (fuel : nat)
    (d : gmap string string) (o : outcome string) (tr : Trace) :
  generate_testbench env fuel d [] = (o, tr) ->
  (forall j m, prompts tr !! j = Some (header_prompt m) ->
      j = 1%nat /\ exists fd, prompts tr !! 0%nat = Some (bugs_prompt fd))
  /\ (forall p, prompts tr !! 2%nat = Some p ->
      exists fd m bugs hdr,
        p = tb_prompt fd bugs hdr /\
        prompts tr !! 0%nat = Some (bugs_prompt fd) /\
        prompts tr !! 1%nat = Some (header_prompt m))
  /\ (forall m fd, ~ issued_before (header_prompt m) (bugs_prompt fd) tr)
  /\ (forall a, o = Returned a ->
      exists fd m p,
        prompts tr !! 2%nat = Some p /\
        issued_before (bugs_prompt fd) (header_prompt m) tr /\
        issued_before (header_prompt m) p tr).
Proof.
  intros H. destruct (run_prompt_places _ _ _ _ _ H) as (Hbugs & Hheader & _).
  split; [|split; [|split]].
  - intros j m Hj. pose proof (Hheader _ _ Hj) as ->. split; [reflexivity|].
    destruct (lookup_lt_is_Some_2 (prompts tr) 0%nat) as [p0 Hp0].
    { apply lookup_lt_Some in Hj. lia. }
    destruct (run_request_at _ _ _ _ _ H _ _ Hp0) as (fd & _ & ->). now exists fd.
  - intros p Hp. exact (run_third_request _ _ _ _ _ _ H Hp).
  - intros m fd (i & j & Hlt & Hi & Hj).
    apply Hheader in Hi. apply Hbugs in Hj. lia.
  - intros a ->. destruct (run_requests _ _ _ _ _ H) as [_ Hlen].
    specialize (Hlen a eq_refl).
    destruct (lookup_lt_is_Some_2 (prompts tr) 2%nat) as [p Hp].
    { unfold prompts. rewrite length_fmap. lia. }
    destruct (run_third_request _ _ _ _ _ _ H Hp) as (fd & m & bugs & hdr & -> & H0 & H1).
    exists fd, m, (tb_prompt fd bugs hdr). split; [exact Hp|]. split.
    + exists 0%nat, 1%nat. split; [lia|]. now split.
    + exists 1%nat, 2%nat. split; [lia|]. now split.
Qed.

(** ** What the prompts contain *)

(** Find the interpolated text [x] in a prompt: skip the segments to its
    left. *)
Ltac find_interpolated :=
  cbn [String.concat app requirements];
  repeat
    lazymatch goal with
    | |- contains ?x (?x +:+ _) = true => apply contains_here
    | |- contains ?x ((_ +:+ ?x) +:+ _) = true => rewrite append_assoc
    | |- contains ?x ((_ +:+ ?x +:+ _) +:+ _) = true => apply contains_app_l
    | |- contains _ (_ +:+ _) = true => apply contains_app_r
    end.

Lemma tb_prompt_contains_description fd bugs hdr : contains fd (tb_prompt fd bugs hdr) = true.
Proof. unfold tb_prompt. find_interpolated. Qed.

Lemma tb_prompt_contains_bugs fd bugs hdr : contains bugs (tb_prompt fd bugs hdr) = true.
Proof. unfold tb_prompt. find_interpolated. Qed.

Lemma tb_prompt_contains_header fd bugs hdr : contains hdr (tb_prompt fd bugs hdr) = true.
Proof. unfold tb_prompt. find_interpolated. Qed.

Lemma fix_prompt_contains_code code err hdr : contains code (fix_prompt code err hdr) = true.
Proof. unfold fix_prompt. find_interpolated. Qed.

Lemma fix_prompt_contains_error code err hdr : contains err (fix_prompt code err hdr) = true.
Proof. unfold fix_prompt. find_interpolated. Qed.

Lemma fix_prompt_contains_header code err hdr : contains hdr (fix_prompt code err hdr) = true.
Proof. unfold fix_prompt. find_interpolated. Qed.

(** ** Module header and bug hypotheses are computed once *)

(** C5.  In every run the bug hypotheses are requested by the first request
    only and the module header by the second only, both before the one
    request for the testbench, the third; every later request is a repair
    request, and its prompt carries the very header text that the synthesis
    prompt of the run carries. *)
Theorem C5_header_and_bugs_computed_once (env : Env) (fuel : nat)
    (d : gmap string string) (o : outcome string) (tr : Trace) :
  generate_testbench env fuel d [] = (o, tr) ->
  (forall j fd, prompts tr !! j = Some (bugs_prompt fd) -> j = 0%nat)
  /\ (forall j m, prompts tr !! j = Some (header_prompt m) -> j = 1%nat)
  /\ (forall j fd bugs hdr, prompts tr !! j = Some (tb_prompt fd bugs hdr) -> j = 2%nat)
  /\ (forall p, prompts tr !! 2%nat = Some p ->
      exists fd m bugs hdr,
        p = tb_prompt fd bugs hdr /\
        prompts tr !! 0%nat = Some (bugs_prompt fd) /\
        prompts tr !! 1%nat = Some (header_prompt m))
  /\ (forall j p, (3 <= j)%nat -> prompts tr !! j = Some p ->
      exists fd bugs m header c cs verilog_code error_message,
        generations tr !! 1%nat = Some (header_prompt m, Ok header) /\
        candidates header = c :: cs /\
        prompts tr !! 2%nat = Some (tb_prompt fd bugs (strip_envelope (text c))) /\
        p = fix_prompt verilog_code error_message (strip_envelope (text c)) /\
        contains (strip_envelope (text c)) p = true)
  /\ (forall a, o = Returned a -> (3 <= length (prompts tr))%nat).
Proof.
  intros H. destruct (run_prompt_places _ _ _ _ _ H) as (Hbugs & Hheader & Htb).
  split; [exact Hbugs|]. split; [exact Hheader|]. split; [exact Htb|].
  split; [|split].
  - intros p Hp. exact (run_third_request _ _ _ _ _ _ H Hp).
  - intros j p Hj Hp.
    destruct (lookup_lt_is_Some_2 (prompts tr) 2%nat) as [p2 Hp2].
    { apply lookup_lt_Some in Hp. lia. }
    pose proof (run_request_at _ _ _ _ _ H _ _ Hp2) as H2. cbn in H2.
    destruct H2 as (fd & pb & b & bs & m & hd & c & cs & _ & _ & _ & H1 & Hc & ->).
    pose proof (run_request_at _ _ _ _ _ H _ _ Hp) as Hat.
    destruct j as [|[|[|j]]]; [lia|lia|lia|]. cbn in Hat.
    destruct Hat as (m' & hd' & c' & cs' & code & err & H1' & Hc' & ->).
    rewrite H1 in H1'. injection H1' as _ <-.
    rewrite Hc in Hc'. injection Hc' as <- <-.
    exists fd, (text b), m, hd, c, cs, code, err.
    repeat split; try assumption. apply fix_prompt_contains_header.
  - intros a ->. destruct (run_requests _ _ _ _ _ H) as [_ Hlen].
    unfold prompts. rewrite length_fmap. exact (Hlen a eq_refl).
Qed.

(** ** The bug hypotheses reach the synthesis prompt unprocessed *)

(** C8.  [finding_bugs] returns the response of the service as it is; the
    text of that response is interpolated into the synthesis prompt
    unchanged, whereas the header in that prompt is the header response with
    its envelope removed. *)
Theorem C8_bug_hypotheses_unprocessed (env : Env) :
  (forall model functional_desc h response,
      generate_content env h model (bugs_prompt functional_desc) = Ok response ->
      (finding_bugs env model functional_desc h).1 = Returned response)
  /\ (forall model functional_desc potential_bugs module_header h b bs,
      candidates potential_bugs = b :: bs ->
      prompts (creating_tb env model functional_desc potential_bugs module_header h).2
      = prompts h ++ [tb_prompt functional_desc (text b) module_header]
      /\ contains (text b) (tb_prompt functional_desc (text b) module_header) = true)
  /\ (forall fuel (d : gmap string string) o tr p,
      generate_testbench env fuel d [] = (o, tr) ->
      prompts tr !! 2%nat = Some p ->
      exists fd potential_bugs b bs m header c cs,
        generations tr !! 0%nat = Some (bugs_prompt fd, Ok potential_bugs) /\
        candidates potential_bugs = b :: bs /\
        generations tr !! 1%nat = Some (header_prompt m, Ok header) /\
        candidates header = c :: cs /\
        p = tb_prompt fd (text b) (envelope_removed (text c)) /\
        contains (text b) p = true).
Proof.
  split; [|split].
  - intros model fd h response Hr. rewrite finding_bugs_run. cbn zeta. now rewrite Hr.
  - intros model fd pb hdr h b bs Hb. split; [|apply tb_prompt_contains_bugs].
    rewrite creating_tb_run, Hb. cbn zeta. unfold answered.
    destruct (generate_content env h model _) as [[[|c cs]]|e]; cbn [candidates snd];
      read_history; reflexivity.
  - intros fuel d o tr p H Hp.
    pose proof (run_request_at _ _ _ _ _ H _ _ Hp) as Hat. cbn in Hat.
    destruct Hat as (fd & pb & b & bs & m & hd & c & cs & _ & H0 & Hb & H1 & Hc & ->).
    exists fd, pb, b, bs, m, hd, c, cs. rewrite <- strip_envelope_spec.
    repeat split; try assumption. apply tb_prompt_contains_bugs.
Qed.

(** ** An empty header response *)

(** C3, as the design document states it, fails: the service answers the
    header request with the empty string and the run raises no fault; it
    goes on with the empty header and returns a testbench. *)
Lemma C3_empty_header_counterexample :
  generate_testbench empty_header_env 1 observed_files [] = empty_header_run
  /\ generations empty_header_run.2 !! 1%nat = Some (header_prompt "M", reply "")
  /\ prompts empty_header_run.2 !! 2%nat = Some (tb_prompt "S" "- off by one" "")
  /\ empty_header_run.1 = Returned "module tb; endmodule".
Proof. vm_compute. repeat split; reflexivity. Qed.

Lemma strip_envelope_empty : strip_envelope "" = "".
Proof. reflexivity. Qed.

(** C3, amended.  When the service answers the header request with the empty
    string, [extract_header] raises nothing and returns the empty string, and
    the run goes on: with a bugs response at hand, its next request is the
    synthesis request with the empty header interpolated. *)
Theorem C3_empty_header_is_used (env : Env) :
  (forall model mutant0 h response cs,
      generate_content env h model (header_prompt mutant0) = Ok response ->
      candidates response = {| text := "" |} :: cs ->
      extract_header env model mutant0 h
      = (Returned "",
         h ++ [EvGenerate model (header_prompt mutant0) (Ok response); EvPrint ""]))
  /\ (forall fuel (d : gmap string string) o tr fd p0 potential_bugs b bs p1 header cs,
      generate_testbench env fuel d [] = (o, tr) ->
      d !! "specification.md" = Some fd ->
      generations tr !! 0%nat = Some (p0, Ok potential_bugs) ->
      candidates potential_bugs = b :: bs ->
      generations tr !! 1%nat = Some (p1, Ok header) ->
      candidates header = {| text := "" |} :: cs ->
      prompts tr !! 2%nat = Some (tb_prompt fd (text b) "")).
Proof.
  split.
  - intros model m h response cs Hr Hc. rewrite extract_header_run. cbn zeta.
    rewrite Hr. unfold answered. rewrite Hc. cbn [text].
    rewrite strip_envelope_empty, <- app_assoc. reflexivity.
  - intros fuel d o tr fd p0 pb b bs p1 header cs H Hd H0 Hb H1 Hc.
    destruct (run_requests _ _ _ _ _ H) as [Hshape _]. unfold prompts.
    shape_cases Hshape; cbn in H0, H1 |- *; try discriminate.
    + apply (inj Some) in H0. apply (inj Some) in H1.
      apply pair_equal_spec in H0 as [_ [= <-]].
      apply pair_equal_spec in H1 as [_ ->].
      destruct Hwhy as [Hwhy|Hwhy]; [congruence|].
      specialize (Hwhy _ eq_refl). congruence.
    + apply (inj Some) in H0. apply (inj Some) in H1.
      apply pair_equal_spec in H0 as [_ [= <-]].
      apply pair_equal_spec in H1 as [_ [= <-]].
      assert (b0 = b) as -> by congruence.
      assert (c = {| text := EmptyString |}) as -> by congruence.
      cbn [text]. rewrite strip_envelope_empty. reflexivity.
Qed.

(** ** The output contract is asked for, not checked *)

(** C9, as the design document states it, fails: the service is free to
    answer with a text that has no module [tb], no success marker and no
    [$finish], and both components then return that text. *)
Lemma C9_contract_counterexample :
  (creating_tb one_line_env MODEL "S" {| candidates := [ {| text := "- b" |} ] |} "H" []).1
  = Returned "assign x = 1;"
  /\ (fix_verilog_syntax one_line_env MODEL "module tb;" "syntax error" "H" []).1
     = Returned "assign x = 1;"
  /\ ~ meets_output_contract "assign x = 1;".
Proof.
  split; [reflexivity|]. split; [reflexivity|].
  intros (H & _). vm_compute in H. discriminate.
Qed.

Lemma contains_concat (n sep x : string) (l : list string) :
  In x l -> contains n x = true -> contains n (String.concat sep l) = true.
Proof.
  intros Hin Hx. induction l as [|y l IH]; [destruct Hin|].
  cbn [String.concat]. destruct Hin as [->|Hin].
  - destruct l; [exact Hx | now apply contains_app_l].
  - destruct l as [|z l]; [destruct Hin|].
    apply contains_app_r, contains_app_r, IH, Hin.
Qed.

Lemma requirements_state_contract (lines : list string) (hdr : string) :
  let prompt := String.concat nl (lines ++ requirements hdr) in
  contains "The testbench module name is tb." prompt = true /\
  contains success_marker prompt = true /\
  contains "It calls $finish in the end." prompt = true.
Proof.
  cbn zeta. repeat split.
  - apply (contains_concat _ _ "    The testbench module name is tb. ");
      [apply in_or_app; right; cbn; tauto | reflexivity].
  - eapply contains_concat;
      [apply in_or_app; right; do 4 right; left; reflexivity | reflexivity].
  - apply (contains_concat _ _ "    It calls $finish in the end.");
      [apply in_or_app; right; cbn; tauto | reflexivity].
Qed.

(** C9, amended.  The synthesis prompt and the repair prompt each state the
    contract: the module name [tb], the success marker, the final [$finish].
    The text that [creating_tb] and [fix_verilog_syntax] return is the
    response with its envelope removed, and nothing else is done to it. *)
Theorem C9_contract_requested_in_prompts (env : Env) :
  (forall fd bugs hdr,
      contains "The testbench module name is tb." (tb_prompt fd bugs hdr) = true /\
      contains success_marker (tb_prompt fd bugs hdr) = true /\
      contains "It calls $finish in the end." (tb_prompt fd bugs hdr) = true)
  /\ (forall code err hdr,
      contains "The testbench module name is tb." (fix_prompt code err hdr) = true /\
      contains success_marker (fix_prompt code err hdr) = true /\
      contains "It calls $finish in the end." (fix_prompt code err hdr) = true)
  /\ (forall model fd potential_bugs hdr h artifact,
      (creating_tb env model fd potential_bugs hdr h).1 = Returned artifact ->
      exists b bs response c cs,
        candidates potential_bugs = b :: bs /\
        generate_content env h model (tb_prompt fd (text b) hdr) = Ok response /\
        candidates response = c :: cs /\
        artifact = envelope_removed (text c))
  /\ (forall model code err hdr h artifact,
      (fix_verilog_syntax env model code err hdr h).1 = Returned artifact ->
      exists response c cs,
        generate_content env h model (fix_prompt code err hdr) = Ok response /\
        candidates response = c :: cs /\
        artifact = envelope_removed (text c)).
Proof.
  split; [|split; [|split]].
  - intros fd bugs hdr. unfold tb_prompt. apply requirements_state_contract.
  - intros code err hdr. unfold fix_prompt. apply requirements_state_contract.
  - intros model fd pb hdr h artifact. rewrite creating_tb_run.
    destruct (candidates pb) as [|b bs]; [discriminate|]. cbn zeta. unfold answered.
    destruct (generate_content env h model _) as [[[|c cs]]|e] eqn:Hr;
      cbn [candidates fst]; try discriminate.
    intros [= <-]. exists b, bs, {| candidates := c :: cs |}, c, cs.
    rewrite strip_envelope_spec. repeat split. exact Hr.
  - intros model code err hdr h artifact. rewrite fix_verilog_syntax_run. cbn zeta.
    unfold answered.
    destruct (generate_content env h model _) as [[[|c cs]]|e] eqn:Hr;
      cbn [candidates fst]; try discriminate.
    intros [= <-]. exists {| candidates := c :: cs |}, c, cs.
    rewrite strip_envelope_spec. repeat split.
Qed.

(** ** The two entries of the input mapping *)

Lemma loop_reads_mutant_only (env : Env) (d d' : gmap string string)
    (model hdr : string) (fuel : nat) :
  d !! "mutant_0.v" = d' !! "mutant_0.v" ->
  forall isGood art h,
    while_not_isGood env fuel d model hdr isGood art h
    = while_not_isGood env fuel d' model hdr isGood art h.
Proof.
  intros Hm. induction fuel as [|fuel IH]; intros [|] art h; try reflexivity.
  destruct (d !! "mutant_0.v") as [m|] eqn:E.
  - rewrite (loop_iteration env _ d _ _ _ _ _ E).
    rewrite (loop_iteration env _ d' _ _ _ _ _ (eq_sym Hm)). cbn zeta.
    destruct (compiler_outcome env art m "tb" h) as [rc out err|why]; [|reflexivity].
    destruct (rc =? 0); [reflexivity|].
    destruct (decode env err) as [msg|]; [|reflexivity].
    unfold answered. destruct (generate_content env _ model _) as [[[|c cs]]|e];
      try reflexivity.
    apply IH.
  - rewrite (loop_missing env _ d _ _ _ _ E).
    now rewrite (loop_missing env _ d' _ _ _ _ (eq_sym Hm)).
Qed.

(** C10.  [generate_testbench] reads the entries ['specification.md'] and
    ['mutant_0.v'] of its argument and no other.  Without the first it
    raises [KeyError] before any request.  Without the second it raises
    [KeyError] once the request for the bugs, whose prompt is made of the
    first entry alone, has been answered; no other request is issued. *)
Theorem C10_reads_two_entries (env : Env) (fuel : nat) :
  (forall (d d' : gmap string string) h,
      d !! "specification.md" = d' !! "specification.md" ->
      d !! "mutant_0.v" = d' !! "mutant_0.v" ->
      generate_testbench env fuel d h = generate_testbench env fuel d' h)
  /\ (forall d : gmap string string,
      d !! "specification.md" = None ->
      generate_testbench env fuel d []
      = (Raised (KeyError "specification.md"), [EvInit "us-central1"]))
  /\ (forall (d : gmap string string) fd,
      d !! "specification.md" = Some fd ->
      d !! "mutant_0.v" = None ->
      let r1 := generate_content env [EvInit "us-central1"] MODEL (bugs_prompt fd) in
      (generate_testbench env fuel d []).2
      = [EvInit "us-central1"; EvGenerate MODEL (bugs_prompt fd) r1]
      /\ (forall potential_bugs,
            r1 = Ok potential_bugs ->
            (generate_testbench env fuel d []).1 = Raised (KeyError "mutant_0.v"))).
Proof.
  split; [|split].
  - intros d d' h Hs Hm. rewrite !generate_testbench_run. cbn zeta.
    rewrite <- Hs, <- Hm.
    destruct (d !! "specification.md") as [fd|]; [|reflexivity].
    destruct (generate_content env _ MODEL (bugs_prompt fd)) as [pb|e]; [|reflexivity].
    destruct (d !! "mutant_0.v") as [m|] eqn:E; [|reflexivity].
    unfold answered.
    destruct (generate_content env _ MODEL (header_prompt m)) as [[[|c cs]]|e];
      try reflexivity.
    cbn [candidates].
    destruct (candidates pb) as [|b bs]; [reflexivity|].
    destruct (generate_content env _ MODEL (tb_prompt _ _ _)) as [[[|c3 cs3]]|e];
      try reflexivity.
    cbn [candidates]. apply loop_reads_mutant_only. congruence.
  - intros d Hs. rewrite generate_testbench_run. cbn zeta. now rewrite Hs.
  - intros d fd Hs Hm. cbn zeta. rewrite generate_testbench_run. cbn zeta.
    rewrite Hs, Hm. cbn [app].
    destruct (generate_content env [EvInit "us-central1"] MODEL (bugs_prompt fd))
      as [pb|e]; split; try reflexivity.
    intros pb' [=].
Qed.

(** ** The theorems at work on concrete runs *)

Lemma rejecting_env_never_passes : never_passes rejecting_env.
Proof.
  intros h argv. exists 2, [], (String.list_byte_of_string "syntax error"), "syntax error".
  split; [|split; [lia | reflexivity]].
  cbn. now destruct (length (launches h)).
Defined.

Lemma rejecting_env_always_answers : always_answers rejecting_env.
Proof.
  intros h model prompt. exists {| text := fenced "module tb; endmodule" |}, [].
  cbn. now destruct (length (generations h)).
Defined.

Lemma C1_order_witness :
  generate_testbench observed_env 2 observed_files [] = observed_run
  /\ ~ issued_before (header_prompt "M") (bugs_prompt "S") observed_run.2.
Proof.
  split; [vm_compute; reflexivity|].
  destruct (C1_bugs_header_synthesis_order observed_env 2 observed_files
              observed_run.1 observed_run.2) as (_ & _ & Hnever & _).
  - vm_compute. reflexivity.
  - exact (Hnever "M" "S").
Defined.

Lemma C2_loop_witness :
  (generate_testbench observed_env 2 observed_files [] = observed_run
   /\ exists m h,
        observed_files !! "mutant_0.v" = Some m /\
        check_verilog_syntax observed_env "module tb; initial $finish; endmodule" m "tb" h
        = (Returned (true, ""), observed_run.2))
  /\ (forall fuel, exists tr,
        generate_testbench rejecting_env fuel observed_files [] = (OutOfFuel, tr) /\
        length (launches tr) = fuel).
Proof.
  destruct (C2_returns_only_after_pass observed_env observed_files) as (Hret & _).
  destruct (C2_returns_only_after_pass rejecting_env observed_files)
    as (_ & _ & _ & _ & Hdiv).
  split; [split|].
  - vm_compute. reflexivity.
  - apply (Hret 2%nat). vm_compute. reflexivity.
  - apply (Hdiv rejecting_env_never_passes rejecting_env_always_answers "S" "M");
      vm_compute; reflexivity.
Defined.

Lemma C3_empty_header_witness :
  generate_testbench empty_header_env 1 observed_files [] = empty_header_run
  /\ prompts empty_header_run.2 !! 2%nat = Some (tb_prompt "S" "- off by one" "").
Proof.
  split; [vm_compute; reflexivity|].
  destruct (C3_empty_header_is_used empty_header_env) as (_ & Hrun).
  apply (Hrun 1%nat observed_files empty_header_run.1 empty_header_run.2 "S"
           (bugs_prompt "S") {| candidates := [ {| text := "- off by one" |} ] |}
           {| text := "- off by one" |} []
           (header_prompt "M") {| candidates := [ {| text := "" |} ] |} []);
    vm_compute; reflexivity.
Defined.

Lemma C4_verdict_witness :
  compiler_outcome observed_env "module tb; endmodule" "M" "tb" []
  = Exited 1 [] (String.list_byte_of_string "syntax error")
  /\ (check_verilog_syntax observed_env "module tb; endmodule" "M" "tb" []).1
     = Returned (false, "syntax error")
  /\ (check_verilog_syntax undecodable_stderr_env "module tb; endmodule" "M" "tb" []).1
     = Raised UnicodeDecodeError.
Proof.
  split; [reflexivity|]. split.
  - destruct (C4_validator_verdict observed_env "module tb; endmodule" "M" "tb" [])
      as (_ & _ & Hfail & _).
    apply (Hfail 1 [] (String.list_byte_of_string "syntax error")).
    + reflexivity.
    + lia.
    + reflexivity.
  - destruct (C4_validator_verdict undecodable_stderr_env "module tb; endmodule" "M"
                "tb" []) as (_ & _ & _ & Hraise & _).
    apply (Hraise 1 [] [Byte.xff]).
    + reflexivity.
    + lia.
    + reflexivity.
Defined.

Lemma C5_once_witness :
  generate_testbench observed_env 2 observed_files [] = observed_run
  /\ exists fd bugs m header c cs verilog_code error_message,
       generations observed_run.2 !! 1%nat = Some (header_prompt m, Ok header) /\
       candidates header = c :: cs /\
       prompts observed_run.2 !! 2%nat
       = Some (tb_prompt fd bugs (strip_envelope (text c))) /\
       fix_prompt "module tb; endmodule" "syntax error" "module m(input a);"
       = fix_prompt verilog_code error_message (strip_envelope (text c)) /\
       contains (strip_envelope (text c))
         (fix_prompt "module tb; endmodule" "syntax error" "module m(input a);") = true.
Proof.
  split; [vm_compute; reflexivity|].
  destruct (C5_header_and_bugs_computed_once observed_env 2 observed_files
              observed_run.1 observed_run.2) as (_ & _ & _ & _ & Hrepair & _).
  - vm_compute. reflexivity.
  - apply (Hrepair 3%nat); [lia | vm_compute; reflexivity].
Defined.

Lemma C7_launch_witness :
  compiler_outcome no_compiler_env "module tb; endmodule" "M" "tb" []
  = NotStarted "No such file or directory: 'iverilog'"
  /\ (check_verilog_syntax no_compiler_env "module tb; endmodule" "M" "tb" []).1
     = Raised (OSError "No such file or directory: 'iverilog'").
Proof.
  split; [reflexivity|].
  destruct (C7_launch_fault_propagates no_compiler_env) as (Hcheck & _).
  apply Hcheck. reflexivity.
Defined.

Lemma C8_unprocessed_witness :
  generate_content one_line_env [] MODEL (bugs_prompt "S")
  = Ok {| candidates := [ {| text := fenced "assign x = 1;" |} ] |}
  /\ (finding_bugs one_line_env MODEL "S" []).1
     = Returned {| candidates := [ {| text := fenced "assign x = 1;" |} ] |}.
Proof.
  split; [reflexivity|].
  destruct (C8_bug_hypotheses_unprocessed one_line_env) as (Hraw & _).
  apply Hraw. reflexivity.
Defined.

Lemma C9_prompts_witness :
  (fix_verilog_syntax one_line_env MODEL "module tb;" "syntax error" "H" []).1
  = Returned "assign x = 1;"
  /\ exists response c cs,
       generate_content one_line_env [] MODEL (fix_prompt "module tb;" "syntax error" "H")
       = Ok response /\
       candidates response = c :: cs /\
       "assign x = 1;" = envelope_removed (text c).
Proof.
  split; [reflexivity|].
  destruct (C9_contract_requested_in_prompts one_line_env) as (_ & _ & _ & Hfix).
  apply (Hfix MODEL "module tb;" "syntax error" "H" []). reflexivity.
Defined.

Lemma C10_entries_witness :
  (∅ : gmap string string) !! "specification.md" = None
  /\ generate_testbench observed_env 2 ∅ []
     = (Raised (KeyError "specification.md"), [EvInit "us-central1"]).
Proof.
  split; [reflexivity|].
  destruct (C10_reads_two_entries observed_env 2) as (_ & Hspec & _).
  apply Hspec. reflexivity.
Defined.

(** ** The lines of a text *)

(** Where no boundary starts, the character joins the current line. *)
Lemma splitlines_from_step (cur : string) (c : ascii) (rest : string) :
  starts_with_break (String c rest) = false ->
  splitlines_from cur (String c rest) = splitlines_from (snoc cur c) rest.
Proof.
  intros H.
  destruct c as [[|] [|] [|] [|] [|] [|] [|] [|]];
    try reflexivity; try discriminate H.
  all: destruct rest as [|c2 r2]; [reflexivity|];
    destruct c2 as [[|] [|] [|] [|] [|] [|] [|] [|]];
    try reflexivity; try discriminate H.
  all: destruct r2 as [|c3 r3]; [reflexivity|];
    destruct c3 as [[|] [|] [|] [|] [|] [|] [|] [|]];
    try reflexivity; try discriminate H.
Qed.

(** Where a boundary starts, the current line is closed and the lines go on
    behind the boundary. *)
Lemma splitlines_from_cases (cur : string) (c : ascii) (rest : string) :
  (plain_char c /\
   splitlines_from cur (String c rest) = splitlines_from (snoc cur c) rest)
  \/ (exists rest',
        (String.length rest' <= String.length rest)%nat /\
        splitlines_from cur (String c rest) = cur :: splitlines_from EmptyString rest').
Proof.
  destruct (starts_with_break (String c rest)) eqn:H.
  - right.
    destruct c as [[|] [|] [|] [|] [|] [|] [|] [|]]; try discriminate H;
      try (exists rest; split; [lia | reflexivity]).
    all: destruct rest as [|c2 r2]; try discriminate H;
      try (exists EmptyString; split; [cbn; lia | reflexivity]);
      destruct c2 as [[|] [|] [|] [|] [|] [|] [|] [|]]; try discriminate H;
      try (exists r2; split; [cbn; lia | reflexivity]);
      try (eexists (String _ r2); split; [cbn; lia | reflexivity]).
    all: destruct r2 as [|c3 r3]; try discriminate H;
      destruct c3 as [[|] [|] [|] [|] [|] [|] [|] [|]]; try discriminate H;
      try (exists r3; split; [cbn; lia | reflexivity]).
  - left. split; [|now apply splitlines_from_step].
    split.
    + intros ->. discriminate H.
    + destruct c as [[|] [|] [|] [|] [|] [|] [|] [|]];
        try reflexivity; discriminate H.
Qed.

(** Whether a boundary starts at a character is decided by the at most two
    characters after it; a text that begins with LF completes none. *)
Lemma starts_with_break_app (c : ascii) (s t : string) :
  starts_with_break (String c (s +:+ String "010" t)) = starts_with_break (String c s).
Proof.
  destruct c as [[|] [|] [|] [|] [|] [|] [|] [|]]; try reflexivity.
  all: destruct s as [|c2 s2]; [reflexivity|]; rewrite append_cons;
    destruct c2 as [[|] [|] [|] [|] [|] [|] [|] [|]]; try reflexivity.
  all: destruct s2 as [|c3 s3]; [reflexivity|]; rewrite append_cons;
    destruct c3 as [[|] [|] [|] [|] [|] [|] [|] [|]]; try reflexivity.
Qed.

Lemma append_nil_r (s : string) : s +:+ EmptyString = s.
Proof. induction s as [|c s IH]; [reflexivity|]. rewrite append_cons. now f_equal. Qed.

Lemma snoc_append (cur : string) (c : ascii) (s : string) :
  snoc cur c +:+ s = cur +:+ String c s.
Proof. unfold snoc. rewrite append_assoc. reflexivity. Qed.

Lemma splitlines_from_one_line (l : string) :
  no_breaks l = true ->
  forall cur, splitlines_from cur l = flush (cur +:+ l).
Proof.
  induction l as [|c l IH]; intros H cur.
  - now rewrite append_nil_r.
  - cbn [no_breaks] in H. apply andb_true_iff in H as [Hc Hl].
    apply negb_true_iff in Hc.
    rewrite (splitlines_from_step _ _ _ Hc), (IH Hl), snoc_append. reflexivity.
Qed.

Lemma splitlines_from_first_line (first rest : string) :
  no_breaks first = true ->
  forall cur,
    splitlines_from cur (first +:+ String "010" rest)
    = (cur +:+ first) :: splitlines_from EmptyString rest.
Proof.
  induction first as [|c f IH]; intros H cur.
  - rewrite append_nil, append_nil_r. reflexivity.
  - cbn [no_breaks] in H. apply andb_true_iff in H as [Hc Hl].
    apply negb_true_iff in Hc. rewrite append_cons.
    rewrite splitlines_from_step by (now rewrite starts_with_break_app).
    rewrite (IH Hl), snoc_append. reflexivity.
Qed.

Lemma join_cons (x : string) (l : list string) :
  l <> [] -> join nl (x :: l) = x +:+ nl +:+ join nl l.
Proof. destruct l; [congruence | reflexivity]. Qed.

(** The lines of a payload that is followed by LF and a last line: the
    lines of the payload, whose join is the payload, and the last line. *)
Lemma splitlines_from_payload (payload last : string) :
  lf_breaks_only payload = true ->
  no_breaks last = true ->
  last <> EmptyString ->
  forall cur, exists lines,
    splitlines_from cur (payload +:+ String "010" last) = lines ++ [last] /\
    lines <> [] /\
    join nl lines = cur +:+ payload.
Proof.
  intros Hp Hl Hne. induction payload as [|c p IH]; intros cur.
  - exists [cur]. rewrite append_nil, append_nil_r.
    split; [|split]; [|congruence|reflexivity].
    change (splitlines_from cur (String "010" last))
      with (cur :: splitlines_from EmptyString last).
    rewrite (splitlines_from_one_line _ Hl), append_nil.
    destruct last; [congruence | reflexivity].
  - cbn [lf_breaks_only] in Hp. apply andb_true_iff in Hp as [Hc Hp].
    rewrite append_cons. destruct (Ascii.eqb_spec c "010") as [->|Hlf].
    + destruct (IH Hp EmptyString) as (lines & E & Hn & Hj).
      exists (cur :: lines).
      change (splitlines_from cur (String "010" (p +:+ String "010" last)))
        with (cur :: splitlines_from EmptyString (p +:+ String "010" last)).
      rewrite E. split; [reflexivity|]. split; [congruence|].
      rewrite (join_cons _ _ Hn), Hj, append_nil. reflexivity.
    + cbn [orb] in Hc. apply negb_true_iff in Hc.
      destruct (IH Hp (snoc cur c)) as (lines & E & Hn & Hj).
      exists lines. rewrite splitlines_from_step by (now rewrite starts_with_break_app).
      rewrite E. split; [reflexivity|]. split; [exact Hn|].
      rewrite Hj, snoc_append. reflexivity.
Qed.

(** A text of a first line, a payload and a last line that is not empty
    gives back the payload. *)
Lemma strip_envelope_fenced_payload (first payload last : string) :
  no_breaks first = true ->
  lf_breaks_only payload = true ->
  no_breaks last = true ->
  last <> EmptyString ->
  strip_envelope (first +:+ nl +:+ payload +:+ nl +:+ last) = payload.
Proof.
  intros Hf Hp Hl Hne. rewrite strip_envelope_spec.
  unfold envelope_removed, splitlines.
  change (first +:+ nl +:+ payload +:+ nl +:+ last)
    with (first +:+ String "010" (payload +:+ String "010" last)).
  rewrite (splitlines_from_first_line _ _ Hf).
  destruct (splitlines_from_payload _ _ Hp Hl Hne EmptyString) as (lines & -> & Hn & Hj).
  unfold without_first_and_last. cbn [tail]. rewrite removelast_last.
  rewrite Hj. apply append_nil.
Qed.

Lemma without_first_and_last_two {A : Type} (l : list A) :
  (length l <= 2)%nat -> without_first_and_last l = [].
Proof.
  destruct l as [|x [|y [|z l]]]; cbn; intros; try reflexivity; lia.
Qed.

Lemma strip_envelope_short (t : string) :
  (length (splitlines t) <= 2)%nat -> strip_envelope t = "".
Proof.
  intros H. rewrite strip_envelope_spec. unfold envelope_removed.
  now rewrite without_first_and_last_two.
Qed.

(** What the three components make of the text of a response. *)
Lemma components_return (env : Env) (model : string) (h : Trace) (t : string) :
  (forall mutant0 cs,
      generate_content env h model (header_prompt mutant0)
      = Ok {| candidates := {| text := t |} :: cs |} ->
      (extract_header env model mutant0 h).1 = Returned (strip_envelope t))
  /\ (forall functional_desc potential_bugs module_header b bs cs,
      candidates potential_bugs = b :: bs ->
      generate_content env h model (tb_prompt functional_desc (text b) module_header)
      = Ok {| candidates := {| text := t |} :: cs |} ->
      (creating_tb env model functional_desc potential_bugs module_header h).1
      = Returned (strip_envelope t))
  /\ (forall verilog_code error_message module_header cs,
      generate_content env h model (fix_prompt verilog_code error_message module_header)
      = Ok {| candidates := {| text := t |} :: cs |} ->
      (fix_verilog_syntax env model verilog_code error_message module_header h).1
      = Returned (strip_envelope t)).
Proof.
  repeat split.
  - intros m cs Hr. rewrite extract_header_run. cbn zeta. now rewrite Hr.
  - intros fd pb hdr b bs cs Hb Hr. rewrite creating_tb_run, Hb. cbn zeta.
    now rewrite Hr.
  - intros code err hdr cs Hr. rewrite fix_verilog_syntax_run. cbn zeta.
    now rewrite Hr.
Qed.

(** ** Envelope removal (Header Extractor, Testbench Synthesizer, Repair Step) *)

(** Whether a boundary starts at a character is not changed by a text that
    follows two or fewer characters later, unless that text begins with the
    last byte of NEL, LS or PS or the middle byte of LS and PS. *)
Lemma starts_with_break_before (c : ascii) (s t : string) :
  inert_head t = true ->
  starts_with_break (String c (s +:+ t)) = starts_with_break (String c s).
Proof.
  intros Ht.
  destruct c as [[|] [|] [|] [|] [|] [|] [|] [|]]; try reflexivity.
  all: destruct s as [|c2 s2];
    [ rewrite append_nil; destruct t as [|c4 t4]; [reflexivity|];
      destruct c4 as [[|] [|] [|] [|] [|] [|] [|] [|]];
      try reflexivity; discriminate Ht
    | rewrite append_cons;
      destruct c2 as [[|] [|] [|] [|] [|] [|] [|] [|]]; try reflexivity ].
  all: destruct s2 as [|c3 s3];
    [ rewrite append_nil; destruct t as [|c4 t4]; [reflexivity|];
      destruct c4 as [[|] [|] [|] [|] [|] [|] [|] [|]];
      try reflexivity; discriminate Ht
    | rewrite append_cons;
      destruct c3 as [[|] [|] [|] [|] [|] [|] [|] [|]]; try reflexivity ].
Qed.

Lemma boundary_inert_head (b t : string) : In b boundaries -> inert_head (b +:+ t) = true.
Proof.
  intros H. cbn in H.
  repeat (destruct H as [<-|H]; [reflexivity|]). destruct H.
Qed.

(** A line and the boundary that ends it. *)
Lemma splitlines_from_line (line b t : string) :
  no_breaks line = true ->
  In b boundaries ->
  (b = String "013" EmptyString -> starts_with_lf t = false) ->
  forall cur,
    splitlines_from cur (line +:+ b +:+ t)
    = (cur +:+ line) :: splitlines_from EmptyString t.
Proof.
  intros Hl Hb Hcr. induction line as [|c l IH]; intros cur.
  - rewrite append_nil, append_nil_r. cbn in Hb.
    destruct Hb as [<-|[<-|Hb]]; [reflexivity| |].
    { specialize (Hcr eq_refl). rewrite append_cons, append_nil.
      destruct t as [|c4 t4]; [reflexivity|].
      destruct c4 as [[|] [|] [|] [|] [|] [|] [|] [|]];
        try reflexivity; discriminate Hcr. }
    repeat (destruct Hb as [<-|Hb]; [reflexivity|]). destruct Hb.
  - cbn [no_breaks] in Hl. apply andb_true_iff in Hl as [Hc Hl].
    apply negb_true_iff in Hc. rewrite append_cons.
    rewrite splitlines_from_step.
    + rewrite (IH Hl), snoc_append. reflexivity.
    + rewrite starts_with_break_before; [exact Hc|].
      now apply boundary_inert_head.
Qed.

(** [splitlines] finds the lines from which a text was put together. *)
Lemma splitlines_assemble (segs : list (string * string)) (final : string) :
  well_formed segs final ->
  splitlines (assemble segs final) = lines_of segs final.
Proof.
  unfold splitlines, lines_of. induction segs as [|[line b] rest IH]; intros Hwf.
  - cbn in Hwf |- *. rewrite (splitlines_from_one_line _ Hwf), append_nil.
    reflexivity.
  - destruct Hwf as (Hl & Hb & Hcr & Hrest). cbn [assemble].
    rewrite (splitlines_from_line _ _ _ Hl Hb Hcr), append_nil, (IH Hrest).
    reflexivity.
Qed.

(** [join] with a newline puts a newline between one line and the next. *)
Lemma newline_joined_join (lines : list string) : join nl lines = newline_joined lines.
Proof.
  induction lines as [|x rest IH]; [reflexivity|].
  unfold join in *. cbn [String.concat newline_joined].
  destruct rest as [|y rest]; [reflexivity|]. rewrite IH. reflexivity.
Qed.

Lemma strip_envelope_assemble (segs : list (string * string)) (final : string) :
  well_formed segs final ->
  strip_envelope (assemble segs final)
  = newline_joined (without_first_and_last (lines_of segs final)).
Proof.
  intros Hwf. rewrite strip_envelope_spec. unfold envelope_removed.
  now rewrite (splitlines_assemble _ _ Hwf), newline_joined_join.
Qed.

Lemma boundary_at_none (t : string) :
  boundary_at t = None -> starts_with_break t = false.
Proof.
  destruct t as [|c r]; [reflexivity|].
  destruct c as [[|] [|] [|] [|] [|] [|] [|] [|]];
    try reflexivity; try discriminate.
  all: destruct r as [|c2 r2]; try reflexivity; try discriminate;
    destruct c2 as [[|] [|] [|] [|] [|] [|] [|] [|]];
    try reflexivity; try discriminate.
  all: destruct r2 as [|c3 r3]; try reflexivity; try discriminate;
    destruct c3 as [[|] [|] [|] [|] [|] [|] [|] [|]];
    try reflexivity; try discriminate.
Qed.

(** One case of [boundary_at]: no boundary, or the boundary that was
    found. *)
Ltac boundary_found :=
  cbn;
  first
    [ discriminate
    | intros [= <- <-];
      split; [reflexivity|];
      split; [cbn; tauto|];
      split; [first [discriminate | intros _; reflexivity] | cbn; lia] ].

Lemma boundary_at_some (t b rest : string) :
  boundary_at t = Some (b, rest) ->
  t = b +:+ rest /\ In b boundaries /\
  (b = String "013" EmptyString -> starts_with_lf rest = false) /\
  (String.length rest < String.length t)%nat.
Proof.
  destruct t as [|c r]; [discriminate|].
  destruct c as [[|] [|] [|] [|] [|] [|] [|] [|]]; try solve [boundary_found].
  all: destruct r as [|c2 r2]; [solve [boundary_found]|];
    destruct c2 as [[|] [|] [|] [|] [|] [|] [|] [|]]; try solve [boundary_found].
  all: destruct r2 as [|c3 r3]; [solve [boundary_found]|];
    destruct c3 as [[|] [|] [|] [|] [|] [|] [|] [|]]; solve [boundary_found].
Qed.

Lemma first_line_whole (t line : string) :
  first_line t = (line, None) -> t = line /\ no_breaks line = true.
Proof.
  revert line. induction t as [|c r IH]; intros line.
  - intros [= <-]. now split.
  - cbn [first_line]. destruct (boundary_at (String c r)) as [found|] eqn:Hb;
      [discriminate|].
    destruct (first_line r) as [l found]. intros [= <- ->].
    destruct (IH l eq_refl) as [-> Hl]. split; [reflexivity|].
    cbn [no_breaks]. now rewrite (boundary_at_none _ Hb), Hl.
Qed.

Lemma first_line_ended (t line b rest : string) :
  first_line t = (line, Some (b, rest)) ->
  t = line +:+ b +:+ rest /\ no_breaks line = true /\ In b boundaries /\
  (b = String "013" EmptyString -> starts_with_lf rest = false) /\
  (String.length rest < String.length t)%nat.
Proof.
  revert line. induction t as [|c r IH]; intros line; [discriminate|].
  cbn [first_line]. destruct (boundary_at (String c r)) as [found|] eqn:Hb.
  - intros [= <- ->]. rewrite append_nil.
    destruct (boundary_at_some _ _ _ Hb) as (E & Hin & Hcr & Hlen).
    now repeat split.
  - destruct (first_line r) as [l found]. intros [= <- ->].
    destruct (IH l eq_refl) as (E & Hl & Hin & Hcr & Hlen).
    repeat split; try assumption.
    + rewrite append_cons. now f_equal.
    + cbn [no_breaks]. rewrite Hl, andb_true_r. apply negb_true_iff.
      apply boundary_at_none in Hb. rewrite E in Hb.
      rewrite starts_with_break_before in Hb; [exact Hb|].
      now apply boundary_inert_head.
    + cbn [String.length]. lia.
Qed.

(** Every text is put together from lines, in the sense of [well_formed]. *)
Lemma text_has_lines (t : string) :
  exists segs final, well_formed segs final /\ t = assemble segs final.
Proof.
  remember (String.length t) as n eqn:Hn. revert t Hn.
  induction (lt_wf n) as [n _ IH]. intros t ->.
  destruct (first_line t) as [line [[b rest]|]] eqn:Hf.
  - destruct (first_line_ended _ _ _ _ Hf) as (E & Hl & Hin & Hcr & Hlen).
    destruct (IH _ Hlen rest eq_refl) as (segs & final & Hwf & ->).
    exists ((line, b) :: segs), final. split; [|exact E].
    cbn [well_formed]. now repeat split.
  - destruct (first_line_whole _ _ Hf) as [-> Hl].
    exists [], line. now split.
Qed.

(** C6.  Every text of a response is put together from lines, each ended by
    a line boundary, and whatever these are, the value that [extract_header],
    [creating_tb] and [fix_verilog_syntax] return for the response is its
    lines without the first and the last, with a newline between one and the
    next. *)
Theorem C6_components_remove_envelope (env : Env) (model : string) (h : Trace)
    (response : GenerationResponse) (c : Candidate) (cs : list Candidate) :
  candidates response = c :: cs ->
  (exists segs final, well_formed segs final /\ text c = assemble segs final)
  /\ forall segs final,
      well_formed segs final ->
      text c = assemble segs final ->
      let remaining := newline_joined (without_first_and_last (lines_of segs final)) in
      (forall mutant0,
          generate_content env h model (header_prompt mutant0) = Ok response ->
          (extract_header env model mutant0 h).1 = Returned remaining)
      /\ (forall functional_desc potential_bugs module_header b bs,
          candidates potential_bugs = b :: bs ->
          generate_content env h model (tb_prompt functional_desc (text b) module_header)
          = Ok response ->
          (creating_tb env model functional_desc potential_bugs module_header h).1
          = Returned remaining)
      /\ (forall verilog_code error_message module_header,
          generate_content env h model
            (fix_prompt verilog_code error_message module_header)
          = Ok response ->
          (fix_verilog_syntax env model verilog_code error_message module_header h).1
          = Returned remaining).
Proof.
  intros Hc. split; [apply text_has_lines|].
  intros segs final Hwf Ht. cbn zeta.
  rewrite <- (strip_envelope_assemble _ _ Hwf), <- Ht.
  destruct response as [cands]. cbn [candidates] in Hc. subst cands.
  destruct c as [t]. cbn [text].
  destruct (components_return env model h t) as (Hh & Htb & Hfix).
  repeat split.
  - intros m Hr. now apply (Hh m cs).
  - intros fd pb hdr b bs Hb Hr. now apply (Htb fd pb hdr b bs cs).
  - intros code err hdr Hr. now apply (Hfix code err hdr cs).
Qed.

Lemma C6_envelope_witness :
  generate_content one_line_env [] MODEL (header_prompt "M")
  = Ok {| candidates :=
            [ {| text := "```verilog" +:+ nl +:+ "assign x = 1;" +:+ nl +:+ "```" |} ] |}
  /\ (extract_header one_line_env MODEL "M" []).1 = Returned "assign x = 1;".
Proof.
  split; [reflexivity|].
  refine (proj1 (proj2 (C6_components_remove_envelope one_line_env MODEL []
            {| candidates := [ {| text := fenced "assign x = 1;" |} ] |}
            {| text := fenced "assign x = 1;" |} [] eq_refl)
          [("```verilog", nl); ("assign x = 1;", nl)] "```" _ _) "M" _).
  - cbn. repeat split; try reflexivity; try tauto; discriminate.
  - reflexivity.
  - reflexivity.
Defined.

(** * Further properties of the agent *)

(** ** Responses with and without an envelope *)

(** X1.  A response of a first line, a payload whose only line boundaries
    are LF, and a last line that is not empty: [extract_header],
    [creating_tb] and [fix_verilog_syntax] return the payload, unchanged. *)
Theorem X1_fenced_response_gives_payload (env : Env) (model : string) (h : Trace)
    (first payload last : string) :
  no_breaks first = true ->
  lf_breaks_only payload = true ->
  no_breaks last = true ->
  last <> EmptyString ->
  let t := first +:+ nl +:+ payload +:+ nl +:+ last in
  (forall mutant0 cs,
      generate_content env h model (header_prompt mutant0)
      = Ok {| candidates := {| text := t |} :: cs |} ->
      (extract_header env model mutant0 h).1 = Returned payload)
  /\ (forall functional_desc potential_bugs module_header b bs cs,
      candidates potential_bugs = b :: bs ->
      generate_content env h model (tb_prompt functional_desc (text b) module_header)
      = Ok {| candidates := {| text := t |} :: cs |} ->
      (creating_tb env model functional_desc potential_bugs module_header h).1
      = Returned payload)
  /\ (forall verilog_code error_message module_header cs,
      generate_content env h model (fix_prompt verilog_code error_message module_header)
      = Ok {| candidates := {| text := t |} :: cs |} ->
      (fix_verilog_syntax env model verilog_code error_message module_header h).1
      = Returned payload).
Proof.
  intros Hf Hp Hl Hne t.
  rewrite <- (strip_envelope_fenced_payload first payload last Hf Hp Hl Hne).
  apply components_return.
Qed.

Lemma X1_fenced_witness :
  no_breaks "```verilog" = true
  /\ lf_breaks_only ("assign x = 1;" +:+ nl +:+ "assign y = 0;") = true
  /\ no_breaks "```" = true
  /\ (fix_verilog_syntax
        (scripted []
           (reply ("```verilog" +:+ nl +:+ ("assign x = 1;" +:+ nl +:+ "assign y = 0;")
                   +:+ nl +:+ "```"))
           [] (Exited 0 [] []))
        MODEL "module tb" "syntax error" "H" []).1
     = Returned ("assign x = 1;" +:+ nl +:+ "assign y = 0;").
Proof.
  split; [reflexivity|]. split; [reflexivity|]. split; [reflexivity|].
  refine (proj2 (proj2 (X1_fenced_response_gives_payload _ MODEL []
            "```verilog" ("assign x = 1;" +:+ nl +:+ "assign y = 0;") "```"
            eq_refl eq_refl eq_refl _)) "module tb" "syntax error" "H" [] _).
  - discriminate.
  - reflexivity.
Defined.

(** X2.  A response of at most two lines leaves nothing: the three
    components return the empty string. *)
Theorem X2_short_response_gives_empty (env : Env) (model : string) (h : Trace)
    (t : string) :
  (length (splitlines t) <= 2)%nat ->
  (forall mutant0 cs,
      generate_content env h model (header_prompt mutant0)
      = Ok {| candidates := {| text := t |} :: cs |} ->
      (extract_header env model mutant0 h).1 = Returned "")
  /\ (forall functional_desc potential_bugs module_header b bs cs,
      candidates potential_bugs = b :: bs ->
      generate_content env h model (tb_prompt functional_desc (text b) module_header)
      = Ok {| candidates := {| text := t |} :: cs |} ->
      (creating_tb env model functional_desc potential_bugs module_header h).1
      = Returned "")
  /\ (forall verilog_code error_message module_header cs,
      generate_content env h model (fix_prompt verilog_code error_message module_header)
      = Ok {| candidates := {| text := t |} :: cs |} ->
      (fix_verilog_syntax env model verilog_code error_message module_header h).1
      = Returned "").
Proof.
  intros Hshort. rewrite <- (strip_envelope_short t Hshort).
  apply components_return.
Qed.

Lemma X2_short_witness :
  (length (splitlines "module m(input a, output b);") <= 2)%nat
  /\ (extract_header bare_header_env MODEL "M" []).1 = Returned "".
Proof.
  assert (Hshort : (length (splitlines "module m(input a, output b);") <= 2)%nat)
    by (vm_compute; lia).
  split; [exact Hshort|].
  refine (proj1 (X2_short_response_gives_empty bare_header_env MODEL []
            "module m(input a, output b);" Hshort) "M" [] _).
  reflexivity.
Defined.

(** ** The line boundaries of what is returned *)

Lemma list_ascii_of_string_app (a b : string) :
  String.list_ascii_of_string (a +:+ b)
  = String.list_ascii_of_string a ++ String.list_ascii_of_string b.
Proof.
  induction a as [|c a IH]; [reflexivity|].
  rewrite append_cons. cbn [String.list_ascii_of_string app]. now f_equal.
Qed.

Lemma flush_plain (cur : string) : plain_line cur -> Forall plain_line (flush cur).
Proof.
  intros H. destruct cur; unfold flush; [constructor|].
  constructor; [exact H | constructor].
Qed.

Lemma splitlines_from_plain (n : nat) :
  forall s cur,
    (String.length s <= n)%nat -> plain_line cur ->
    Forall plain_line (splitlines_from cur s).
Proof.
  induction n as [|n IH]; intros s cur Hlen Hcur.
  - destruct s; [|cbn in Hlen; lia]. now apply flush_plain.
  - destruct s as [|c rest]; [now apply flush_plain|].
    cbn [String.length] in Hlen.
    destruct (splitlines_from_cases cur c rest) as [[Hc ->]|(rest' & Hle & ->)].
    + apply IH; [lia|]. unfold snoc, plain_line.
      rewrite list_ascii_of_string_app. apply Forall_app_2; [exact Hcur|].
      repeat constructor; apply Hc.
    + constructor; [exact Hcur|]. apply IH; [lia | constructor].
Qed.

Lemma join_lf_terminated (lines : list string) :
  Forall plain_line lines -> lf_terminated (join nl lines).
Proof.
  induction 1 as [|x l Hx Hl IH].
  - constructor.
  - assert (Hx' : lf_terminated x).
    { eapply Forall_impl; [exact Hx|]. intros ch Hch. now right. }
    unfold join in *. cbn [String.concat]. destruct l as [|y l]; [exact Hx'|].
    unfold lf_terminated. rewrite !list_ascii_of_string_app.
    apply Forall_app_2; [exact Hx'|]. apply Forall_app_2; [|exact IH].
    repeat constructor.
Qed.

Lemma strip_envelope_lf_terminated (t : string) : lf_terminated (strip_envelope t).
Proof.
  rewrite strip_envelope_spec. unfold envelope_removed. apply join_lf_terminated.
  unfold without_first_and_last. rewrite removelast_firstn_len.
  apply Forall_take.
  assert (H : Forall plain_line (splitlines t)).
  { apply (splitlines_from_plain (String.length t)); [lia | constructor]. }
  destruct H; [constructor | assumption].
Qed.

(** X3.  Whatever the response, the text that [extract_header],
    [creating_tb] and [fix_verilog_syntax] return has no carriage return and
    no vertical tab, form feed or separator character: of the one-byte line
    boundaries it has only LF. *)
Theorem X3_returned_text_breaks_at_lf_only (env : Env) (model : string) (h : Trace) :
  (forall t, lf_terminated (strip_envelope t))
  /\ (forall mutant0 a,
      (extract_header env model mutant0 h).1 = Returned a -> lf_terminated a)
  /\ (forall functional_desc potential_bugs module_header a,
      (creating_tb env model functional_desc potential_bugs module_header h).1
      = Returned a -> lf_terminated a)
  /\ (forall verilog_code error_message module_header a,
      (fix_verilog_syntax env model verilog_code error_message module_header h).1
      = Returned a -> lf_terminated a).
Proof.
  split; [exact strip_envelope_lf_terminated|]. repeat split.
  - intros m a. rewrite extract_header_run. cbn zeta. unfold answered.
    destruct (generate_content env h model _) as [[[|c cs]]|e]; cbn [candidates fst];
      try discriminate.
    intros [= <-]. apply strip_envelope_lf_terminated.
  - intros fd pb hdr a. rewrite creating_tb_run.
    destruct (candidates pb) as [|b bs]; [discriminate|]. cbn zeta. unfold answered.
    destruct (generate_content env h model _) as [[[|c cs]]|e]; cbn [candidates fst];
      try discriminate.
    intros [= <-]. apply strip_envelope_lf_terminated.
  - intros code err hdr a. rewrite fix_verilog_syntax_run. cbn zeta. unfold answered.
    destruct (generate_content env h model _) as [[[|c cs]]|e]; cbn [candidates fst];
      try discriminate.
    intros [= <-]. apply strip_envelope_lf_terminated.
Qed.

Lemma X3_crlf_witness :
  (fix_verilog_syntax crlf_env MODEL "module tb" "syntax error" "H" []).1
  = Returned ("module tb;" +:+ nl +:+ "endmodule")
  /\ lf_terminated ("module tb;" +:+ nl +:+ "endmodule").
Proof.
  split; [reflexivity|].
  destruct (X3_returned_text_breaks_at_lf_only crlf_env MODEL []) as (_ & _ & _ & Hfix).
  apply (Hfix "module tb" "syntax error" "H"). reflexivity.
Defined.

(** ** What a run does to files, directories and processes *)

Lemma confined_app (d : gmap string string) (evs1 evs2 : Trace) :
  forall live,
    confined d live evs1 -> confined d None evs2 -> confined d live (evs1 ++ evs2).
Proof.
  induction evs1 as [|ev evs1 IH]; intros live H1 H2.
  - cbn in H1. subst live. exact H2.
  - destruct ev; cbn in H1 |- *; try (destruct H1 as [H1 H1']; split; [exact H1|]);
      now apply IH.
Qed.

(** What the loop adds to the history: events that are confined, that are
    requests to the one model, and that hold one launch for each
    validation. *)
Lemma loop_events (env : Env) (d : gmap string string) (hdr : string) fuel :
  forall art h o tr,
    while_not_isGood env fuel d MODEL hdr false art h = (o, tr) ->
    exists evs,
      tr = h ++ evs /\ confined d None evs /\ Forall after_init evs /\
      (launches evs).*2 = (validations evs).*2.
Proof.
  induction fuel as [|fuel IH]; intros art h o tr Hrun.
  - rewrite loop_out_of_fuel in Hrun. injection Hrun as <- <-.
    exists []. rewrite app_nil_r. repeat split. constructor.
  - iterate_in Hrun env d.
    2:{ injection Hrun as <- <-. exists []. rewrite app_nil_r. repeat split. constructor. }
    unfold before_launch in Hrun.
    destruct (compiler_outcome env art m "tb" h) as [rc out err|why].
    2:{ injection Hrun as <- <-. eexists. rewrite <- !app_assoc.
        split; [reflexivity|]. cbn. split; [|split; [repeat constructor|reflexivity]].
        repeat split; eauto 6. }
    destruct (rc =? 0).
    { injection Hrun as <- <-. eexists. rewrite <- !app_assoc.
      split; [reflexivity|]. cbn. split; [|split; [repeat constructor|reflexivity]].
      repeat split; eauto 6. }
    destruct (decode env err) as [msg|] eqn:Hd.
    2:{ injection Hrun as <- <-. eexists. rewrite <- !app_assoc.
        split; [reflexivity|]. cbn. split; [|split; [repeat constructor|reflexivity]].
        repeat split; eauto 6. }
    unfold answered in Hrun.
    destruct (generate_content env _ MODEL _) as [[[|c cs]]|e] eqn:Hg.
    + injection Hrun as <- <-. eexists. rewrite <- !app_assoc.
      split; [reflexivity|]. cbn. split; [|split; [repeat constructor|reflexivity]].
      repeat split; eauto 6.
    + destruct (IH _ _ _ _ Hrun) as (evs & -> & Hconf & Hall & Hl).
      eexists. rewrite <- !app_assoc. split; [reflexivity|]. cbn.
      split; [|split].
      * repeat split; eauto 6.
      * repeat constructor. exact Hall.
      * f_equal. exact Hl.
    + injection Hrun as <- <-. eexists. rewrite <- !app_assoc.
      split; [reflexivity|]. cbn. split; [|split; [repeat constructor|reflexivity]].
      repeat split; eauto 6.
Qed.

(** The history of a run, from its first event. *)
Lemma run_events (env : Env) (fuel : nat) (d : gmap string string)
    (o : outcome string) (tr : Trace) :
  generate_testbench env fuel d [] = (o, tr) ->
  confined d None tr
  /\ (exists rest, tr = EvInit "us-central1" :: rest /\ Forall after_init rest)
  /\ (launches tr).*2 = (validations tr).*2.
Proof.
  intros H. run_cases H.
  all: try (injection H as <- <-; cbn; split; [reflexivity|];
            split; [|reflexivity]; eexists; split; [reflexivity|];
            repeat constructor).
  destruct (loop_events _ _ _ _ _ _ _ _ H) as (evs & -> & Hconf & Hall & Hl).
  rewrite <- !app_assoc. cbn. split; [exact Hconf|]. split; [|exact Hl].
  eexists. split; [reflexivity|]. repeat constructor. exact Hall.
Qed.

(** X4.  In every run, however it ends, every file is written and every
    process is launched inside a temporary directory that the run has
    created and not yet removed; the files are [temp_tb.v] and [mutant0.v],
    the latter with the candidate module as the mapping has it; the process
    is [iverilog -g2012 -o <dir>/a.out -s tb <dir>/temp_tb.v <dir>/mutant0.v];
    a directory is created only when none is live, and none is left at the
    end. *)
Theorem X4_files_and_launches_confined (env : Env) (fuel : nat)
    (d : gmap string string) (o : outcome string) (tr : Trace) :
  generate_testbench env fuel d [] = (o, tr) -> confined d None tr.
Proof. intros H. exact (proj1 (run_events _ _ _ _ _ H)). Qed.

Lemma X4_confined_witness :
  generate_testbench observed_env 2 observed_files [] = observed_run
  /\ confined observed_files None observed_run.2.
Proof.
  assert (H : generate_testbench observed_env 2 observed_files []
              = (observed_run.1, observed_run.2)) by (vm_compute; reflexivity).
  split; [exact H|].
  exact (X4_files_and_launches_confined observed_env 2 observed_files _ _ H).
Defined.

(** X5.  Every run begins with the one [vertexai.init], for the location
    [us-central1], and every request of the run goes to the model
    [gemini-2.5-pro]. *)
Theorem X5_one_init_one_model (env : Env) (fuel : nat)
    (d : gmap string string) (o : outcome string) (tr : Trace) :
  generate_testbench env fuel d [] = (o, tr) ->
  exists rest, tr = EvInit "us-central1" :: rest /\ Forall after_init rest.
Proof. intros H. exact (proj1 (proj2 (run_events _ _ _ _ _ H))). Qed.

Lemma X5_model_witness :
  generate_testbench observed_env 2 observed_files [] = observed_run
  /\ exists rest, observed_run.2 = EvInit "us-central1" :: rest /\ Forall after_init rest.
Proof.
  assert (H : generate_testbench observed_env 2 observed_files []
              = (observed_run.1, observed_run.2)) by (vm_compute; reflexivity).
  split; [exact H|].
  exact (X5_one_init_one_model observed_env 2 observed_files _ _ H).
Defined.

(** ** Every fault ends the run *)

Lemma last_cons_Some {A : Type} (x y : A) (l : list A) :
  last l = Some y -> last (x :: l) = Some y.
Proof. destruct l; [discriminate | intros H; exact H]. Qed.

(** In the rounds of the loop, a request that was not answered with a
    candidate is the last request, and a validation whose standard error
    does not decode is the last validation; the loop ends with the fault. *)
Lemma rounds_faults (env : Env) (hdr art : string) vs gs o :
  Rounds env hdr art vs gs o ->
  (forall p e, (p, Err e) ∈ gs -> o = Raised e /\ last gs = Some (p, Err e))
  /\ (forall p response,
        (p, Ok response) ∈ gs -> candidates response = [] ->
        o = Raised IndexError /\ last gs = Some (p, Ok response))
  /\ (forall a rc out err,
        (a, Exited rc out err) ∈ vs -> rc <> 0 -> decode env err = None ->
        o = Raised UnicodeDecodeError /\ last vs = Some (a, Exited rc out err)).
Proof.
  induction 1 as [art out err
                 |art rc out err message response c cs vs gs o Hrc Hd Hc _ IH
                 |art rc out err message r e Hrc Hd Hr
                 |art rc out err Hrc Hd
                 |art reason
                 |art
                 |art].
  - split; [|split].
    + intros p e Hin. now apply elem_of_nil in Hin.
    + intros p response Hin. now apply elem_of_nil in Hin.
    + intros a rc out' err' Hin Hrc. apply list_elem_of_singleton in Hin.
      injection Hin as _ -> _ _. now destruct Hrc.
  - destruct IH as (IHe & IHc & IHv). split; [|split].
    + intros p e Hin. apply elem_of_cons in Hin as [[=]|Hin].
      destruct (IHe p e Hin) as [-> Hlast]. split; [reflexivity|].
      now apply last_cons_Some.
    + intros p r Hin Hr. apply elem_of_cons in Hin as [[= _ ->]|Hin]; [congruence|].
      destruct (IHc p r Hin Hr) as [-> Hlast]. split; [reflexivity|].
      now apply last_cons_Some.
    + intros a rc' out' err' Hin Hrc' Hd'.
      apply elem_of_cons in Hin as [[= _ _ _ ->]|Hin]; [congruence|].
      destruct (IHv a rc' out' err' Hin Hrc' Hd') as [-> Hlast].
      split; [reflexivity|]. now apply last_cons_Some.
  - split; [|split].
    + intros p e' Hin. apply list_elem_of_singleton in Hin. rewrite Hin.
      injection Hin as _ <-.
      destruct Hr as [[= ->]|(response & [=] & _)]. now split.
    + intros p response Hin Hcs. apply list_elem_of_singleton in Hin. rewrite Hin.
      injection Hin as _ <-.
      destruct Hr as [[=]|(response' & _ & _ & ->)]. now split.
    + intros a rc' out' err' Hin Hrc' Hd'. apply list_elem_of_singleton in Hin.
      injection Hin as _ _ _ ->. congruence.
  - split; [|split].
    + intros p e Hin. now apply elem_of_nil in Hin.
    + intros p response Hin. now apply elem_of_nil in Hin.
    + intros a rc' out' err' Hin _ _. apply list_elem_of_singleton in Hin.
      now rewrite Hin.
  - split; [|split].
    + intros p e Hin. now apply elem_of_nil in Hin.
    + intros p response Hin. now apply elem_of_nil in Hin.
    + intros a rc out err Hin. apply list_elem_of_singleton in Hin. discriminate.
  - split; [|split]; intros ? ? ? **; now apply elem_of_nil in H.
  - split; [|split]; intros ? ? ? **; now apply elem_of_nil in H.
Qed.

(** Take apart the membership [Hin] in a list that is written out. *)
Ltac in_written Hin :=
  repeat first
    [ apply elem_of_nil in Hin; destruct Hin
    | apply elem_of_cons in Hin as [Hin|Hin] ].

(** X6.  Every fault ends the run, and nothing is tried again.  A request
    that the service answers with an exception is the last request of the
    run, and the run raises that exception, unchanged.  A response without a
    candidate, to any request but the first, is the last, and the run raises
    [IndexError].  A validation whose compiler exits with an error and whose
    standard error does not decode is the last, and the run raises
    [UnicodeDecodeError]. *)
Theorem X6_a_fault_ends_the_run (env : Env) (fuel : nat)
    (d : gmap string string) (o : outcome string) (tr : Trace) :
  generate_testbench env fuel d [] = (o, tr) ->
  (forall p e,
      (p, Err e) ∈ generations tr ->
      o = Raised e /\ last (generations tr) = Some (p, Err e))
  /\ (forall j p response,
        (1 <= j)%nat ->
        generations tr !! j = Some (p, Ok response) ->
        candidates response = [] ->
        o = Raised IndexError /\ last (generations tr) = Some (p, Ok response))
  /\ (forall a rc out err,
        (a, Exited rc out err) ∈ validations tr ->
        rc <> 0 ->
        decode env err = None ->
        o = Raised UnicodeDecodeError
        /\ last (validations tr) = Some (a, Exited rc out err)).
Proof.
  intros H. run_cases H.
  all: try (injection H as <- <-; read_history; cbn [validations];
            split; [|split];
            [ intros ? ? Hin; in_written Hin; simplify_eq; now split
            | intros [|[|[|?]]] ? ? ? Hin ?; try lia; cbn in Hin;
              simplify_eq; first [now split | congruence]
            | intros ? ? ? ? Hin; in_written Hin ]).
  destruct (loop_rounds _ _ _ _ _ _ _ _ _ H) as (evs & -> & Hrounds).
  apply rounds_faults in Hrounds as (He & Hc & Hv).
  rewrite <- !app_assoc. read_history. cbn [app validations]. split; [|split].
  - intros p e Hin. in_written Hin; try discriminate.
    destruct (He p e Hin) as [-> Hlast]. split; [reflexivity|].
    now do 3 apply last_cons_Some.
  - intros [|[|[|j]]] p response Hj Hin Hcs; try lia; cbn in Hin; simplify_eq;
      try congruence.
    apply list_elem_of_lookup_2 in Hin.
    destruct (Hc p response Hin Hcs) as [-> Hlast]. split; [reflexivity|].
    now do 3 apply last_cons_Some.
  - exact Hv.
Qed.

Lemma X6_outage_witness :
  generate_testbench outage_env 5 observed_files []
  = (Raised (ServiceError "503"), (generate_testbench outage_env 5 observed_files []).2)
  /\ last (generations (generate_testbench outage_env 5 observed_files []).2)
     = Some (fix_prompt "module tb; endmodule" "syntax error" "module m(input a);",
             Err (ServiceError "503"))
  /\ length (generations (generate_testbench outage_env 5 observed_files []).2) = 4%nat.
Proof.
  assert (H : generate_testbench outage_env 5 observed_files []
              = (Raised (ServiceError "503"),
                 (generate_testbench outage_env 5 observed_files []).2))
    by (vm_compute; reflexivity).
  split; [exact H|]. split; [|vm_compute; reflexivity].
  refine (proj2 (proj1 (X6_a_fault_ends_the_run outage_env 5 observed_files _ _ H)
                   (fix_prompt "module tb; endmodule" "syntax error" "module m(input a);")
                   (ServiceError "503") _)).
  vm_compute. do 3 apply list_elem_of_further. apply list_elem_of_here.
Defined.

(** ** The rounds of a run that returns, and of one that does not end *)

Lemma rounds_returned (env : Env) (hdr art : string) vs gs a :
  Rounds env hdr art vs gs (Returned a) ->
  length vs = S (length gs)
  /\ (exists out err, last vs = Some (a, Exited 0 out err))
  /\ Forall failed (removelast vs)
  /\ (forall g, last gs = Some g ->
        exists response c cs,
          g.2 = Ok response /\ candidates response = c :: cs /\
          a = strip_envelope (text c))
  /\ (gs = [] -> a = art).
Proof.
  intros H. remember (Returned a) as o eqn:Ho.
  induction H as [art out err
                 |art rc out err message response c cs vs gs o Hrc Hd Hc Hrest IH
                 |art rc out err message r e Hrc Hd Hr
                 |art rc out err Hrc Hd
                 |art reason | art | art]; try discriminate Ho.
  - injection Ho as <-. repeat split.
    + now exists out, err.
    + constructor.
    + intros g [=].
  - destruct (IH Ho) as (Hlen & (out' & err' & Hlast) & Hfail & Hg & Hnil).
    assert (Hvs : vs <> []) by (destruct vs; [discriminate Hlen | congruence]).
    repeat split.
    + cbn [length]. now rewrite Hlen.
    + exists out', err'. destruct vs; [congruence | exact Hlast].
    + destruct vs as [|v vs']; [congruence|]. cbn [removelast].
      constructor; [now exists rc, out, err | exact Hfail].
    + intros g Hlastg. destruct gs as [|g' gs'].
      * cbn in Hlastg. injection Hlastg as <-. exists response, c, cs.
        repeat split; [exact Hc | now apply Hnil].
      * apply Hg. exact Hlastg.
    + intros [=].
Qed.

Lemma returned_run_rounds (env : Env) (fuel : nat) (d : gmap string string)
    (a : string) (tr : Trace) :
  generate_testbench env fuel d [] = (Returned a, tr) ->
  exists hdr g0 g1 p response c cs gs,
    generations tr = g0 :: g1 :: (p, Ok response) :: gs /\
    candidates response = c :: cs /\
    Rounds env hdr (strip_envelope (text c)) (validations tr) gs (Returned a).
Proof.
  intros H. run_cases H; try discriminate.
  destruct (loop_rounds _ _ _ _ _ _ _ _ _ H) as (evs & -> & Hrounds).
  rewrite <- !app_assoc. read_history. cbn.
  eexists _, _, _, _, _, _, _, _. split; [reflexivity|]. split; [eassumption|].
  exact Hrounds.
Qed.

(** X7.  A run that returns has launched the compiler once for every
    validation and has made two requests more than launches: three requests
    before the loop and one repair request after every launch but the last.
    The last launch exited with status zero, on the text that is returned;
    every launch before it exited with another status. *)
Theorem X7_requests_and_launches_of_a_return (env : Env) (fuel : nat)
    (d : gmap string string) (a : string) (tr : Trace) :
  generate_testbench env fuel d [] = (Returned a, tr) ->
  (launches tr).*2 = (validations tr).*2
  /\ length (generations tr) = (length (launches tr) + 2)%nat
  /\ (exists out err, last (validations tr) = Some (a, Exited 0 out err))
  /\ Forall failed (removelast (validations tr)).
Proof.
  intros H. destruct (run_events _ _ _ _ _ H) as (_ & _ & Hl).
  destruct (returned_run_rounds _ _ _ _ _ H)
    as (hdr & g0 & g1 & p & response & c & cs & gs & Hg & Hc & Hrounds).
  destruct (rounds_returned _ _ _ _ _ _ Hrounds) as (Hlen & Hlast & Hfail & _).
  split; [exact Hl|]. split; [|split; assumption].
  assert (Hn : length (launches tr) = length (validations tr)).
  { rewrite <- (length_fmap snd (launches tr)), Hl. apply length_fmap. }
  rewrite Hg, Hn. cbn [length]. lia.
Qed.

Lemma X7_accounting_witness :
  generate_testbench observed_env 2 observed_files [] = observed_run
  /\ length (generations observed_run.2) = (length (launches observed_run.2) + 2)%nat.
Proof.
  assert (H : generate_testbench observed_env 2 observed_files []
              = (Returned "module tb; initial $finish; endmodule", observed_run.2))
    by (vm_compute; reflexivity).
  split; [vm_compute; reflexivity|].
  exact (proj1 (proj2 (X7_requests_and_launches_of_a_return _ _ _ _ _ H))).
Defined.

(** X8.  What a run returns is the text of the answer to its last request,
    with its envelope removed: the answer to the synthesis request when the
    first validation passes, the answer to the last repair request
    otherwise. *)
Theorem X8_result_is_last_answer (env : Env) (fuel : nat)
    (d : gmap string string) (a : string) (tr : Trace) :
  generate_testbench env fuel d [] = (Returned a, tr) ->
  exists p response c cs,
    last (generations tr) = Some (p, Ok response) /\
    candidates response = c :: cs /\
    a = envelope_removed (text c).
Proof.
  intros H.
  destruct (returned_run_rounds _ _ _ _ _ H)
    as (hdr & g0 & g1 & p & response & c & cs & gs & -> & Hc & Hrounds).
  destruct (rounds_returned _ _ _ _ _ _ Hrounds) as (_ & _ & _ & Hg & Hnil).
  destruct (last gs) as [[p' r']|] eqn:Hlast.
  - destruct (Hg _ eq_refl) as (response' & c' & cs' & Hr & Hc' & ->).
    cbn in Hr. subst r'. exists p', response', c', cs'.
    rewrite strip_envelope_spec. repeat split; [|exact Hc'].
    destruct gs; [discriminate | exact Hlast].
  - apply last_None in Hlast. subst gs. exists p, response, c, cs.
    rewrite <- strip_envelope_spec. repeat split; [exact Hc | now apply Hnil].
Qed.

Lemma X8_last_answer_witness :
  generate_testbench observed_env 2 observed_files [] = observed_run
  /\ exists p response c cs,
       last (generations observed_run.2) = Some (p, Ok response) /\
       candidates response = c :: cs /\
       "module tb; initial $finish; endmodule" = envelope_removed (text c).
Proof.
  assert (H : generate_testbench observed_env 2 observed_files []
              = (Returned "module tb; initial $finish; endmodule", observed_run.2))
    by (vm_compute; reflexivity).
  split; [vm_compute; reflexivity|].
  exact (X8_result_is_last_answer _ _ _ _ _ H).
Defined.

Lemma loop_out_of_fuel_rounds (env : Env) (d : gmap string string) (hdr : string) fuel :
  forall art h tr,
    while_not_isGood env fuel d MODEL hdr false art h = (OutOfFuel, tr) ->
    exists evs,
      tr = h ++ evs /\
      length (launches evs) = fuel /\
      Forall exited_with_error (launches evs).*2 /\
      length (generations evs) = fuel /\
      Forall answered_with_text (generations evs).
Proof.
  induction fuel as [|fuel IH]; intros art h tr Hrun.
  - rewrite loop_out_of_fuel in Hrun. injection Hrun as <-.
    exists []. rewrite app_nil_r. repeat split; constructor.
  - iterate_in Hrun env d; [|discriminate].
    unfold before_launch in Hrun.
    destruct (compiler_outcome env art m "tb" h) as [rc out err|why]; [|discriminate].
    destruct (Z.eqb_spec rc 0) as [->|Hrc]; [discriminate|].
    destruct (decode env err) as [msg|] eqn:Hd; [|discriminate].
    unfold answered in Hrun.
    destruct (generate_content env _ MODEL _) as [[[|c cs]]|e] eqn:Hg; try discriminate.
    cbn [candidates] in Hrun.
    destruct (IH _ _ _ Hrun) as (evs & -> & Hl & Hfail & Hgn & Hans).
    eexists. rewrite <- !app_assoc. split; [reflexivity|].
    read_history. repeat split.
    + cbn [length]. now rewrite Hl.
    + constructor; [now exists rc, out, err | exact Hfail].
    + cbn [length]. now rewrite Hgn.
    + constructor; [now eexists _, c, cs | exact Hans].
Qed.

(** X9.  A run that has used up its fuel has spent every unit on one round:
    a launch of the compiler that exited with an error, and a repair request
    that was answered.  Nothing else keeps a run from ending. *)
Theorem X9_fuel_is_spent_on_failed_rounds (env : Env) (fuel : nat)
    (d : gmap string string) (tr : Trace) :
  generate_testbench env fuel d [] = (OutOfFuel, tr) ->
  length (launches tr) = fuel
  /\ Forall exited_with_error (launches tr).*2
  /\ length (generations tr) = (fuel + 3)%nat
  /\ Forall answered_with_text (generations tr).
Proof.
  intros H. run_cases H; try discriminate.
  destruct (loop_out_of_fuel_rounds _ _ _ _ _ _ _ H) as (evs & -> & Hl & Hfail & Hgn & Hans).
  rewrite <- !app_assoc. read_history. repeat split.
  - exact Hl.
  - exact Hfail.
  - cbn [length]. rewrite Hgn. lia.
  - repeat (constructor; [eexists _, _, _; split; [reflexivity | eassumption]|]).
    exact Hans.
Qed.

Lemma X9_fuel_witness :
  generate_testbench rejecting_env 3 observed_files []
  = (OutOfFuel, (generate_testbench rejecting_env 3 observed_files []).2)
  /\ length (launches (generate_testbench rejecting_env 3 observed_files []).2) = 3%nat.
Proof.
  assert (H : generate_testbench rejecting_env 3 observed_files []
              = (OutOfFuel, (generate_testbench rejecting_env 3 observed_files []).2))
    by (vm_compute; reflexivity).
  split; [exact H|].
  exact (proj1 (X9_fuel_is_spent_on_failed_rounds _ _ _ _ H)).
Defined.

(** ** The faults of the components *)

(** X10.  A fault of the service leaves [finding_bugs], [extract_header],
    [creating_tb] and [fix_verilog_syntax] as it is, after the request and
    with nothing printed.  A response without a candidate makes
    [extract_header] and [fix_verilog_syntax] raise [IndexError];
    [finding_bugs] returns it all the same, and [creating_tb] raises
    [IndexError] on it before any request.  So a run whose bugs response
    has no candidate still requests and prints the header, and only then
    raises [IndexError]. *)
Theorem X10_faults_of_the_components (env : Env) (model : string) (h : Trace) :
  (forall fd r,
      generate_content env h model (bugs_prompt fd) = r ->
      finding_bugs env model fd h
      = (match r with Ok response => Returned response | Err e => Raised e end,
         h ++ [EvGenerate model (bugs_prompt fd) r]))
  /\ (forall m r e,
      generate_content env h model (header_prompt m) = r ->
      r = Err e \/ (exists response, r = Ok response /\ candidates response = [] /\
                                     e = IndexError) ->
      extract_header env model m h
      = (Raised e, h ++ [EvGenerate model (header_prompt m) r]))
  /\ (forall fd potential_bugs hdr,
      candidates potential_bugs = [] ->
      creating_tb env model fd potential_bugs hdr h = (Raised IndexError, h))
  /\ (forall code err hdr r e,
      generate_content env h model (fix_prompt code err hdr) = r ->
      r = Err e \/ (exists response, r = Ok response /\ candidates response = [] /\
                                     e = IndexError) ->
      fix_verilog_syntax env model code err hdr h
      = (Raised e, h ++ [EvGenerate model (fix_prompt code err hdr) r]))
  /\ (forall fuel (d : gmap string string) fd m potential_bugs header c cs,
      d !! "specification.md" = Some fd ->
      d !! "mutant_0.v" = Some m ->
      generate_content env [EvInit "us-central1"] MODEL (bugs_prompt fd)
      = Ok potential_bugs ->
      candidates potential_bugs = [] ->
      generate_content env
        [EvInit "us-central1"; EvGenerate MODEL (bugs_prompt fd) (Ok potential_bugs)]
        MODEL (header_prompt m) = Ok header ->
      candidates header = c :: cs ->
      generate_testbench env fuel d []
      = (Raised IndexError,
         [EvInit "us-central1";
          EvGenerate MODEL (bugs_prompt fd) (Ok potential_bugs);
          EvGenerate MODEL (header_prompt m) (Ok header);
          EvPrint (strip_envelope (text c))])).
Proof.
  split; [|split; [|split; [|split]]].
  - intros fd r <-. rewrite finding_bugs_run. cbn zeta.
    destruct (generate_content env h model (bugs_prompt fd)); reflexivity.
  - intros m r e <- Hr. rewrite extract_header_run. cbn zeta. unfold answered.
    destruct Hr as [->|(response & -> & -> & ->)]; reflexivity.
  - intros fd pb hdr Hc. rewrite creating_tb_run, Hc. reflexivity.
  - intros code err hdr r e <- Hr. rewrite fix_verilog_syntax_run. cbn zeta.
    unfold answered. destruct Hr as [->|(response & -> & -> & ->)]; reflexivity.
  - intros fuel d fd m pb header c cs Hfd Hm Hb Hbc Hh Hhc.
    rewrite generate_testbench_run. cbn zeta. rewrite Hfd. cbn [app].
    rewrite Hb, Hm, Hh. unfold answered. rewrite Hhc, Hbc. reflexivity.
Qed.

Lemma X10_faults_witness :
  generate_testbench no_candidate_env 1 observed_files []
  = (Raised IndexError,
     [EvInit "us-central1";
      EvGenerate MODEL (bugs_prompt "S") (Ok {| candidates := [] |});
      EvGenerate MODEL (header_prompt "M") (reply (fenced "module m(input a);"));
      EvPrint "module m(input a);"]).
Proof.
  refine (proj2 (proj2 (proj2 (proj2 (X10_faults_of_the_components no_candidate_env MODEL [])))) 
            1%nat observed_files "S" "M" {| candidates := [] |}
            {| candidates := [ {| text := fenced "module m(input a);" |} ] |}
            {| text := fenced "module m(input a);" |} [] _ _ _ _ _ _);
    reflexivity.
Defined.

(** ** What the prompts carry *)

Lemma header_prompt_contains_module m : contains m (header_prompt m) = true.
Proof. unfold header_prompt. find_interpolated. Qed.

Lemma bugs_prompt_contains_description fd : contains fd (bugs_prompt fd) = true.
Proof. unfold bugs_prompt. find_interpolated. Qed.

(** X11.  Each prompt carries each text it is built from, as it is: the
    candidate module in the header prompt, the functional description in the
    bugs prompt and in the synthesis prompt, the failing testbench and the
    diagnostic in the repair prompt.  In a run the first request carries the
    ['specification.md'] entry and the second the ['mutant_0.v'] entry. *)
Theorem X11_prompts_carry_their_inputs (env : Env) :
  (forall m, contains m (header_prompt m) = true)
  /\ (forall fd, contains fd (bugs_prompt fd) = true)
  /\ (forall fd bugs hdr, contains fd (tb_prompt fd bugs hdr) = true)
  /\ (forall code err hdr,
        contains code (fix_prompt code err hdr) = true /\
        contains err (fix_prompt code err hdr) = true)
  /\ (forall fuel (d : gmap string string) o tr,
        generate_testbench env fuel d [] = (o, tr) ->
        (forall p, prompts tr !! 0%nat = Some p ->
           exists fd, d !! "specification.md" = Some fd /\ contains fd p = true) /\
        (forall p, prompts tr !! 1%nat = Some p ->
           exists m, d !! "mutant_0.v" = Some m /\ contains m p = true)).
Proof.
  split; [exact header_prompt_contains_module|].
  split; [exact bugs_prompt_contains_description|].
  split; [exact tb_prompt_contains_description|].
  split.
  - intros code err hdr. split;
      [apply fix_prompt_contains_code | apply fix_prompt_contains_error].
  - intros fuel d o tr H. split; intros p Hp.
    + destruct (run_request_at _ _ _ _ _ H _ _ Hp) as (fd & Hfd & ->).
      exists fd. split; [exact Hfd | apply bugs_prompt_contains_description].
    + destruct (run_request_at _ _ _ _ _ H _ _ Hp) as (m & Hm & ->).
      exists m. split; [exact Hm | apply header_prompt_contains_module].
Qed.

Lemma X11_prompts_witness :
  generate_testbench observed_env 2 observed_files [] = observed_run
  /\ exists m, observed_files !! "mutant_0.v" = Some m
               /\ contains m (header_prompt "M") = true.
Proof.
  assert (H : generate_testbench observed_env 2 observed_files []
              = (observed_run.1, observed_run.2)) by (vm_compute; reflexivity).
  split; [exact H|].
  destruct (X11_prompts_carry_their_inputs observed_env) as (_ & _ & _ & _ & Hrun).
  apply (proj2 (Hrun 2%nat observed_files _ _ H) (header_prompt "M")).
  vm_compute. reflexivity.
Defined.

(** ** What a run prints *)

Lemma printed_app (h k : Trace) : printed (h ++ k) = printed h ++ printed k.
Proof. apply omap_app. Qed.

Lemma loop_printed (env : Env) (d : gmap string string) (hdr : string) fuel :
  forall art h o tr,
    while_not_isGood env fuel d MODEL hdr false art h = (o, tr) ->
    exists evs,
      tr = h ++ evs /\
      printed evs = flat_map (verdict_lines env) (validations evs).
Proof.
  induction fuel as [|fuel IH]; intros art h o tr Hrun.
  - rewrite loop_out_of_fuel in Hrun. injection Hrun as <- <-.
    exists []. rewrite app_nil_r. now split.
  - iterate_in Hrun env d.
    2:{ injection Hrun as <- <-. exists []. rewrite app_nil_r. now split. }
    unfold before_launch in Hrun.
    destruct (compiler_outcome env art m "tb" h) as [rc out err|why].
    2:{ injection Hrun as <- <-. eexists. rewrite <- !app_assoc.
        split; [reflexivity|]. reflexivity. }
    destruct (rc =? 0) eqn:Hrc.
    { injection Hrun as <- <-. eexists. rewrite <- !app_assoc.
      split; [reflexivity|]. cbn. unfold verdict_lines. cbn [snd]. now rewrite Hrc. }
    destruct (decode env err) as [msg|] eqn:Hd.
    2:{ injection Hrun as <- <-. eexists. rewrite <- !app_assoc.
        split; [reflexivity|]. cbn. unfold verdict_lines. cbn [snd].
        now rewrite Hrc, Hd. }
    unfold answered in Hrun.
    destruct (generate_content env _ MODEL _) as [[[|c cs]]|e] eqn:Hg.
    + injection Hrun as <- <-. eexists. rewrite <- !app_assoc.
      split; [reflexivity|]. cbn. unfold verdict_lines. cbn [snd].
      now rewrite Hrc, Hd.
    + cbn [candidates] in Hrun.
      destruct (IH _ _ _ _ Hrun) as (evs & -> & Hp).
      eexists. rewrite <- !app_assoc. split; [reflexivity|].
      cbn [app validations flat_map]. unfold verdict_lines at 1. cbn [snd].
      rewrite Hrc, Hd. cbn [app]. rewrite <- Hp. reflexivity.
    + injection Hrun as <- <-. eexists. rewrite <- !app_assoc.
      split; [reflexivity|]. cbn. unfold verdict_lines. cbn [snd].
      now rewrite Hrc, Hd.
Qed.

(** X12.  What a run prints, once it has its first testbench: the header,
    the first testbench, and then for every validation its verdict, either
    [Syntax is valid.] or [Syntax error detected:] and the diagnostic.  The
    testbenches that the repair requests give are not printed. *)
Theorem X12_what_a_run_prints (env : Env) (fuel : nat) (d : gmap string string)
    (o : outcome string) (tr : Trace) p1 header c1 cs1 p2 response c2 cs2 :
  generate_testbench env fuel d [] = (o, tr) ->
  generations tr !! 1%nat = Some (p1, Ok header) ->
  candidates header = c1 :: cs1 ->
  generations tr !! 2%nat = Some (p2, Ok response) ->
  candidates response = c2 :: cs2 ->
  printed tr
  = envelope_removed (text c1) :: envelope_removed (text c2)
    :: flat_map (verdict_lines env) (validations tr).
Proof.
  intros H H1 Hc1 H2 Hc2. rewrite <- !strip_envelope_spec. run_cases H.
  all: try (injection H as <- <-; read_history; cbn in H1, H2; congruence).
  destruct (loop_printed _ _ _ _ _ _ _ _ H) as (evs & -> & Hp).
  rewrite <- !app_assoc in H1, H2 |- *. read_history. cbn in H1, H2 |- *.
  apply (inj Some) in H1. apply pair_equal_spec in H1 as [_ [= <-]].
  apply (inj Some) in H2. apply pair_equal_spec in H2 as [_ [= <-]].
  repeat match goal with
  | Ha : candidates ?r = _ :: _, Hb : candidates ?r = _ :: _ |- _ =>
      rewrite Ha in Hb; injection Hb as <- <-
  end.
  fold (printed evs). rewrite Hp. reflexivity.
Qed.

Lemma X12_prints_witness :
  generate_testbench observed_env 2 observed_files [] = observed_run
  /\ printed observed_run.2
     = ["module m(input a);"; "module tb; endmodule";
        "Syntax error detected:"; "syntax error"; "Syntax is valid."].
Proof.
  assert (H : generate_testbench observed_env 2 observed_files []
              = (observed_run.1, observed_run.2)) by (vm_compute; reflexivity).
  split; [exact H|].
  refine (X12_what_a_run_prints observed_env 2 observed_files _ _
            (header_prompt "M") {| candidates := [ {| text := fenced "module m(input a);" |} ] |}
            {| text := fenced "module m(input a);" |} []
            (tb_prompt "S" "- off by one" "module m(input a);")
            {| candidates := [ {| text := fenced "module tb; endmodule" |} ] |}
            {| text := fenced "module tb; endmodule" |} [] H _ _ _ _);
    reflexivity.
Defined.
